(** * idle_cash: the return comparison of [main.py]

    A shallow embedding of the fee functions, the return formulas and the
    comparison logic of [main.py], with the properties its specification
    states about them and further properties read off the code.

    Numbers.  The program computes with Python floats.  They are embedded
    as exact rationals ([Q]): every arithmetic operation is the exact one,
    so rounding, infinities and NaN are outside the model.  Equality of
    numbers is [==] ([Qeq]); Python's comparison operators are the boolean
    tests of module [Py].  The only arithmetic operation of the program
    that can raise is the true division [a / b] by a variable, which raises
    [ZeroDivisionError] when [b == 0]; it is embedded in the exception monad
    [result].  Divisions by the literal [100] cannot raise and are plain
    divisions.

    Text.  Labels and messages are the string literals of the source;
    f-strings are concatenations.  Numbers printed with a format are kept as
    numbers. *)

From Stdlib Require Import QArith Qminmax Lqa String List Bool.
Import ListNotations.

Local Open Scope Q_scope.

(** ** Python primitives *)

Module Py.

(** [a < b], [a > b], [a <= b] and [a == b] on numbers. *)
Definition lt (a b : Q) : bool := negb (Qle_bool b a).
Definition gt (a b : Q) : bool := lt b a.
Definition le (a b : Q) : bool := Qle_bool a b.
Definition eq (a b : Q) : bool := Qeq_bool a b.

(** The built-in [max(a, b)]: the first argument is kept unless the second
    is strictly greater.  [min(a, b)]: the first argument is kept unless
    the second is strictly smaller. *)
Definition max (a b : Q) : Q := if gt b a then b else a.
Definition min (a b : Q) : Q := if lt b a then b else a.

(** Exceptions the program can meet. *)
Inductive exception : Set :=
| ValueError
| ZeroDivisionError.

(** The outcome of evaluating an expression: a value or a raised
    exception. *)
Inductive result (A : Type) : Type :=
| Ok (a : A)
| Raise (e : exception).

Arguments Ok {A} a.
Arguments Raise {A} e.

Definition bind {A B : Type} (r : result A) (k : A -> result B) : result B :=
  match r with
  | Ok a => k a
  | Raise e => Raise e
  end.

(** True division of floats: [a / b]. *)
Definition truediv (a b : Q) : result Q :=
  if eq b 0 then Raise ZeroDivisionError else Ok (a / b).

End Py.

Notation "x <- c ;; k" := (Py.bind c (fun x => k))
  (at level 61, c at next level, right associativity).

Infix "<?" := Py.lt (at level 70, no associativity) : Q_scope.
Infix ">?" := Py.gt (at level 70, no associativity) : Q_scope.
Infix "<=?" := Py.le (at level 70, no associativity) : Q_scope.
Infix "=?" := Py.eq (at level 70, no associativity) : Q_scope.

(** ** Fee functions (lines 37-49) *)

(** [def calculate_ib_fx_fee(usd_amount)] *)
Definition calculate_ib_fx_fee (usd_amount : Q) : Q :=
  Py.max 2 (0.2 * 0.0001 * usd_amount).

(** [def calculate_ib_bond_fee(face_value)] *)
Definition calculate_ib_bond_fee (face_value : Q) : Q :=
  if face_value <=? 1000000 then
    Py.max (0.002 * 0.0001 * face_value) 5
  else
    Py.max (0.0001 * face_value) 5.

(** [def calculate_futu_bond_fee(face_value)] *)
Definition calculate_futu_bond_fee (face_value : Q) : Q :=
  let commission := Py.max (0.0008 * face_value) 2 in
  let platform_fee := Py.min (Py.max (0.0004 * face_value) 2) 15 in
  commission + platform_fee.

(** ** Conversion and return formulas (lines 51-65) *)

(** [def calculate_usd_received(capital_hkd, fx_rate, fx_fee_function=None)].
    The optional callable is an [option]: a function object is truthy, [None]
    is not. *)
Definition calculate_usd_received
    (capital_hkd fx_rate : Q) (fx_fee_function : option (Q -> Q)) : Q :=
  let usd_amount := capital_hkd * fx_rate in
  match fx_fee_function with
  | Some fx_fee_function =>
      let fee := fx_fee_function usd_amount in
      usd_amount - fee
  | None => usd_amount
  end.

(** [def calculate_ib_money_market_return(principal_usd, fed_rate)] *)
Definition calculate_ib_money_market_return (principal_usd fed_rate : Q) : Q :=
  principal_usd * (fed_rate - 0.005).

(** [def calculate_futu_money_market_return(principal_usd, annualized_return)] *)
Definition calculate_futu_money_market_return
    (principal_usd annualized_return : Q) : Q :=
  principal_usd * (annualized_return / 100).

(** [def calculate_hk_money_market_return(capital_hkd, annualized_return)] *)
Definition calculate_hk_money_market_return
    (capital_hkd annualized_return : Q) : Q :=
  capital_hkd * (annualized_return / 100).

(** ** The comparison of [main] (lines 96-235) *)

Local Open Scope string_scope.
Local Open Scope Q_scope.

(** The values [main] holds once the prompts are answered and the rates are
    fetched (lines 78-83, 89, 90, 99), and the answer to the currency
    question of line 207 after [.strip().upper()]. *)
Record inputs : Type := {
  capital_hkd : Q;
  ib_fx_rate : Q;
  futu_fx_rate : Q;
  futu_annualized_return_usd : Q;
  futu_annualized_return_hkd : Q;
  preferential_rate_hkd : Q;
  bond_rate_1y : Q;
  bond_rate_10y : Q;
  fed_rate : Q;
  preferred_currency : string
}.

(** One row of the results table (lines 157-177): option, amount received,
    return, total. *)
Definition row : Type := (string * Q * Q * Q)%type.

(** What a complete run prints: the table, the headline for the preferred
    currency ([None] on an unrecognised currency), the converted return when
    line 213 or 218 prints one, the cutoff rate and the final sentence. *)
Record report : Type := {
  shown_data : list row;
  shown_best : option (Q * string);
  shown_converted_return : option Q;
  shown_exchange_rate_threshold : Q;
  shown_final_result : string
}.

Section Comparison.

Variable i : inputs.

(** Line 96. *)
Definition best_bond_rate : Q := Py.max (bond_rate_1y i) (bond_rate_10y i).

(** Lines 108 and 110. *)
Definition usd_received_ib : Q :=
  calculate_usd_received (capital_hkd i) (ib_fx_rate i) (Some calculate_ib_fx_fee).
Definition usd_received_futu : Q :=
  calculate_usd_received (capital_hkd i) (futu_fx_rate i) None.

(** Lines 116 and 117. *)
Definition ib_money_market_return : Q :=
  calculate_ib_money_market_return usd_received_ib (fed_rate i).
Definition futu_money_market_return_usd : Q :=
  calculate_futu_money_market_return usd_received_futu (futu_annualized_return_usd i).

(** Lines 123-127. *)
Definition ib_bond_fee : Q := calculate_ib_bond_fee usd_received_ib.
Definition futu_bond_fee : Q := calculate_futu_bond_fee usd_received_futu.
Definition ib_bond_return : Q :=
  usd_received_ib * (best_bond_rate / 100) - ib_bond_fee.
Definition futu_bond_return : Q :=
  usd_received_futu * (best_bond_rate / 100) - futu_bond_fee.

(** Lines 133 and 137. *)
Definition futu_money_market_return_hkd : Q :=
  calculate_hk_money_market_return (capital_hkd i) (futu_annualized_return_hkd i).
Definition preferential_return : Q :=
  capital_hkd i * (preferential_rate_hkd i / 100).

(** Lines 141-146: the two assignments of each branch, one definition per
    assigned variable. *)
Definition best_ib_return : Q :=
  if ib_money_market_return >? ib_bond_return then ib_money_market_return
  else ib_bond_return.
Definition best_ib_option : string :=
  if ib_money_market_return >? ib_bond_return then "Money Market Fund (USD)"
  else "Bond (USD)".

(** Lines 149-154. *)
Definition best_futu_return_usd : Q :=
  if futu_money_market_return_usd >? futu_bond_return then futu_money_market_return_usd
  else futu_bond_return.
Definition best_futu_option_usd : string :=
  if futu_money_market_return_usd >? futu_bond_return then "Money Market Fund (USD)"
  else "Bond (USD)".

(** Lines 157-177. *)
Definition data : list row :=
  [ ("IB Money Market Fund (USD)", usd_received_ib, ib_money_market_return,
     usd_received_ib + ib_money_market_return);
    ("IB Bond (USD)", usd_received_ib, ib_bond_return,
     usd_received_ib + ib_bond_return);
    ("FUTU Money Market Fund (USD)", usd_received_futu, futu_money_market_return_usd,
     usd_received_futu + futu_money_market_return_usd);
    ("FUTU Bond (USD)", usd_received_futu, futu_bond_return,
     usd_received_futu + futu_bond_return);
    ("SCB Preferential Rate (HKD)", capital_hkd i, preferential_return,
     capital_hkd i + preferential_return);
    ("FUTU HK Money Market Fund (HKD)", capital_hkd i, futu_money_market_return_hkd,
     capital_hkd i + futu_money_market_return_hkd) ].

(** Lines 183-186. *)
Definition total_ib_return : Q := usd_received_ib + best_ib_return.
Definition total_futu_return_usd : Q := usd_received_futu + best_futu_return_usd.
Definition total_preferential_return : Q := capital_hkd i + preferential_return.
Definition total_futu_return_hkd : Q := capital_hkd i + futu_money_market_return_hkd.

(** Lines 189 and 190. *)
Definition best_usd_return : Q := Py.max total_ib_return total_futu_return_usd.
Definition best_hkd_return : Q := Py.max total_preferential_return total_futu_return_hkd.

(** Line 193: the one division by a variable. *)
Definition exchange_rate_threshold : Py.result Q :=
  Py.truediv best_usd_return best_hkd_return.

(** Lines 196-204. *)
Definition best_usd_method : string :=
  if best_usd_return =? total_ib_return then "IB with " ++ best_ib_option
  else "FUTU with " ++ best_futu_option_usd.
Definition best_hkd_method : string :=
  if best_hkd_return =? total_preferential_return then "SCB Preferential Rate"
  else "FUTU HK Money Market Fund".

(** Lines 209-220, for the threshold [threshold] computed at line 193: the
    headline that is printed and the converted return, if one is printed. *)
Definition currency_preference (threshold : Q)
  : Py.result (option (Q * string) * option Q) :=
  if (preferred_currency i =? "USD")%string then
    if best_usd_return <? best_hkd_return * threshold then
      let converted_return := best_hkd_return * threshold in
      Py.Ok (Some (best_usd_return, best_usd_method), Some converted_return)
    else Py.Ok (Some (best_usd_return, best_usd_method), None)
  else if (preferred_currency i =? "HKD")%string then
    compared <- Py.truediv best_usd_return threshold ;;
    if best_hkd_return <? compared then
      converted_return <- Py.truediv best_usd_return threshold ;;
      Py.Ok (Some (best_hkd_return, best_hkd_method), Some converted_return)
    else Py.Ok (Some (best_hkd_return, best_hkd_method), None)
  else Py.Ok (None, None).

(** Lines 226-233. *)
Definition final_result : string :=
  if (total_ib_return >? total_futu_return_usd)
     && (total_ib_return >? total_preferential_return)
     && (total_ib_return >? total_futu_return_hkd) then
    "IB offers the better return by investing in " ++ best_ib_option ++ "."
  else if (total_futu_return_usd >? total_ib_return)
     && (total_futu_return_usd >? total_preferential_return)
     && (total_futu_return_usd >? total_futu_return_hkd) then
    "FUTU offers the better return by investing in " ++ best_futu_option_usd ++ "."
  else if (total_futu_return_hkd >? total_ib_return)
     && (total_futu_return_hkd >? total_preferential_return)
     && (total_futu_return_hkd >? total_futu_return_usd) then
    "FUTU HK Money Market Fund offers the better return."
  else
    "SCB Preferential Rate offers the better return.".

(** Lines 96-235 in sequence: an exception raised by a division ends the
    run before anything later is computed. *)
Definition compare : Py.result report :=
  threshold <- exchange_rate_threshold ;;
  shown <- currency_preference threshold ;;
  Py.Ok {| shown_data := data;
           shown_best := fst shown;
           shown_converted_return := snd shown;
           shown_exchange_rate_threshold := threshold;
           shown_final_result := final_result |}.

End Comparison.

(** ** [main] (lines 67-235) *)

(** What one prompt of lines 78-83 yields: an empty line, text that [float]
    reads as a number, or text on which [float] raises [ValueError]. *)
Inductive reply : Type :=
| Blank
| Number (x : Q)
| Garbled.

(** [float(input(...) or default)] *)
Definition read_float (answer : reply) (default : Q) : Py.result Q :=
  match answer with
  | Blank => Py.Ok default
  | Number x => Py.Ok x
  | Garbled => Py.Raise Py.ValueError
  end.

(** Everything a run of [main] reads from outside: the six replies, what
    [get_bond_rate] returns for the two quotes, what [get_fed_rate] returns
    ([None] when the fetch or the parse fails), and the currency answer after
    [.strip().upper()]. *)
Record session : Type := {
  reply_capital_hkd : reply;
  reply_ib_fx_rate : reply;
  reply_futu_fx_rate : reply;
  reply_futu_annualized_return_usd : reply;
  reply_futu_annualized_return_hkd : reply;
  reply_preferential_rate_hkd : reply;
  get_bond_rate_US1Y : option Q;
  get_bond_rate_US10Y : option Q;
  get_fed_rate : option Q;
  reply_preferred_currency : string
}.

(** Lines 69-74. *)
Definition default_capital_hkd : Q := 2000000.
Definition default_ib_fx_rate : Q := 0.128.
Definition default_futu_fx_rate : Q := 0.12785.
Definition default_futu_annualized_return_usd : Q := 4.8491.
Definition default_futu_annualized_return_hkd : Q := 3.8.
Definition default_preferential_rate_hkd : Q := 3.5.

(** How a run ends: [main] returns early after printing a message, an
    exception escapes, or the run prints its report. *)
Inductive outcome : Type :=
| Returned (message : string)
| Uncaught (e : Py.exception)
| Completed (r : report).

(** Lines 77-83: the six reads, in order. *)
Definition user_inputs (s : session) : Py.result (Q * Q * Q * Q * Q * Q) :=
  capital_hkd <- read_float (reply_capital_hkd s) default_capital_hkd ;;
  ib_fx_rate <- read_float (reply_ib_fx_rate s) default_ib_fx_rate ;;
  futu_fx_rate <- read_float (reply_futu_fx_rate s) default_futu_fx_rate ;;
  futu_annualized_return_usd <-
    read_float (reply_futu_annualized_return_usd s) default_futu_annualized_return_usd ;;
  futu_annualized_return_hkd <-
    read_float (reply_futu_annualized_return_hkd s) default_futu_annualized_return_hkd ;;
  preferential_rate_hkd <-
    read_float (reply_preferential_rate_hkd s) default_preferential_rate_hkd ;;
  Py.Ok (capital_hkd, ib_fx_rate, futu_fx_rate, futu_annualized_return_usd,
         futu_annualized_return_hkd, preferential_rate_hkd).

Definition main (s : session) : outcome :=
  match user_inputs s with
  | Py.Raise Py.ValueError => Returned "Invalid input. Please enter numeric values."
  | Py.Raise e => Uncaught e
  | Py.Ok (capital_hkd, ib_fx_rate, futu_fx_rate, futu_annualized_return_usd,
           futu_annualized_return_hkd, preferential_rate_hkd) =>
      match get_bond_rate_US1Y s, get_bond_rate_US10Y s with
      | Some bond_rate_1y, Some bond_rate_10y =>
          match get_fed_rate s with
          | None => Returned "Failed to retrieve the Fed rate."
          | Some fed_rate =>
              match compare {| capital_hkd := capital_hkd;
                               ib_fx_rate := ib_fx_rate;
                               futu_fx_rate := futu_fx_rate;
                               futu_annualized_return_usd := futu_annualized_return_usd;
                               futu_annualized_return_hkd := futu_annualized_return_hkd;
                               preferential_rate_hkd := preferential_rate_hkd;
                               bond_rate_1y := bond_rate_1y;
                               bond_rate_10y := bond_rate_10y;
                               fed_rate := fed_rate;
                               preferred_currency := reply_preferred_currency s |} with
              | Py.Ok r => Completed r
              | Py.Raise e => Uncaught e
              end
          end
      | _, _ => Returned "Failed to retrieve bond rates."
      end
  end.

(** ** The specification's wording of two operations

    Section 4.1 of the specification gives [ibFxFee] a failure on negative
    amounts, and sections 4.3 and 7 give the threshold a
    [DegenerateComparisonError].  Both are written down here as the
    specification words them, to be compared with [calculate_ib_fx_fee] and
    [exchange_rate_threshold]; [None] stands for the failure. *)

Definition ibFxFee_spec (usdAmount : Q) : option Q :=
  if usdAmount <? 0 then None else Some (Qmax 2 (0.2 * 0.0001 * usdAmount)).

Definition exchangeRateThreshold_spec (bestUSDTotal bestHKDTotal : Q) : option Q :=
  if bestHKDTotal <=? 0 then None else Some (bestUSDTotal / bestHKDTotal).

(** ** The conditions of the final selection

    The three tests of lines 226, 228 and 230 as propositions, in the order
    the source writes their comparisons, and the same condition for the
    vehicle that has no test. *)

Definition ib_dominates (i : inputs) : Prop :=
  total_ib_return i > total_futu_return_usd i /\
  total_ib_return i > total_preferential_return i /\
  total_ib_return i > total_futu_return_hkd i.

Definition futu_usd_dominates (i : inputs) : Prop :=
  total_futu_return_usd i > total_ib_return i /\
  total_futu_return_usd i > total_preferential_return i /\
  total_futu_return_usd i > total_futu_return_hkd i.

Definition futu_hk_dominates (i : inputs) : Prop :=
  total_futu_return_hkd i > total_ib_return i /\
  total_futu_return_hkd i > total_preferential_return i /\
  total_futu_return_hkd i > total_futu_return_usd i.

Definition scb_dominates (i : inputs) : Prop :=
  total_preferential_return i > total_ib_return i /\
  total_preferential_return i > total_futu_return_usd i /\
  total_preferential_return i > total_futu_return_hkd i.

(** ** Concrete runs used below

    In the four runs built on a capital of 1024 the amounts, rates and
    returns that the properties below look at are dyadic, so that binary64
    computes them without rounding: the ties are exact ties for the program
    too. *)

(** The returns of both brokers tie: money market 0 and bond 0 at IB, money
    market 4 and bond 4 at FUTU. *)
Definition tied_returns : inputs :=
  {| capital_hkd := 1024; ib_fx_rate := 0.080078125; futu_fx_rate := 0.125;
     futu_annualized_return_usd := 3.125; futu_annualized_return_hkd := 3.8;
     preferential_rate_hkd := 3.5; bond_rate_1y := 6.25; bond_rate_10y := 6.25;
     fed_rate := 0.005; preferred_currency := "USD" |}.

(** The four totals are all 1024. *)
Definition tied_totals : inputs :=
  {| capital_hkd := 1024; ib_fx_rate := 1.001953125; futu_fx_rate := 0.5;
     futu_annualized_return_usd := 100; futu_annualized_return_hkd := 0;
     preferential_rate_hkd := 0; bond_rate_1y := 0; bond_rate_10y := 0;
     fed_rate := 0.005; preferred_currency := "HKD" |}.

(** Both HKD totals are -1024, both USD totals are 1024. *)
Definition negative_hkd : inputs :=
  {| capital_hkd := 1024; ib_fx_rate := 1.001953125; futu_fx_rate := 0.5;
     futu_annualized_return_usd := 100; futu_annualized_return_hkd := -200;
     preferential_rate_hkd := -200; bond_rate_1y := 0; bond_rate_10y := 0;
     fed_rate := 0.005; preferred_currency := "USD" |}.

(** Both HKD rates at -100%: both HKD totals are 0. *)
Definition zero_hkd : inputs :=
  {| capital_hkd := 1024; ib_fx_rate := 1.001953125; futu_fx_rate := 0.5;
     futu_annualized_return_usd := 100; futu_annualized_return_hkd := -100;
     preferential_rate_hkd := -100; bond_rate_1y := 0; bond_rate_10y := 0;
     fed_rate := 0.005; preferred_currency := "USD" |}.

(** The scenario of the specification: the default answers, a fed rate of
    4.5% and a best bond rate of 4%. *)
Definition default_scenario : inputs :=
  {| capital_hkd := 2000000; ib_fx_rate := 0.128; futu_fx_rate := 0.12785;
     futu_annualized_return_usd := 4.8491; futu_annualized_return_hkd := 3.8;
     preferential_rate_hkd := 3.5; bond_rate_1y := 4.0; bond_rate_10y := 3.9;
     fed_rate := 0.045; preferred_currency := "USD" |}.

(** The same run from the prompts: every prompt left empty. *)
Definition defaults : session :=
  {| reply_capital_hkd := Blank; reply_ib_fx_rate := Blank;
     reply_futu_fx_rate := Blank; reply_futu_annualized_return_usd := Blank;
     reply_futu_annualized_return_hkd := Blank; reply_preferential_rate_hkd := Blank;
     get_bond_rate_US1Y := Some 4.0; get_bond_rate_US10Y := Some 3.9;
     get_fed_rate := Some 0.045; reply_preferred_currency := "USD" |}.

(** IB, FUTU-USD and FUTU-HK-HKD tie for the lead at 1024; the preferential
    total is 512. *)
Definition tied_lead : inputs :=
  {| capital_hkd := 1024; ib_fx_rate := 1.001953125; futu_fx_rate := 0.5;
     futu_annualized_return_usd := 100; futu_annualized_return_hkd := 0;
     preferential_rate_hkd := -50; bond_rate_1y := 0; bond_rate_10y := 0;
     fed_rate := 0.005; preferred_currency := "HKD" |}.

(** The default scenario with the fed rate at 5%. *)
Definition higher_fed_rate : inputs :=
  {| capital_hkd := 2000000; ib_fx_rate := 0.128; futu_fx_rate := 0.12785;
     futu_annualized_return_usd := 4.8491; futu_annualized_return_hkd := 3.8;
     preferential_rate_hkd := 3.5; bond_rate_1y := 4.0; bond_rate_10y := 3.9;
     fed_rate := 0.05; preferred_currency := "USD" |}.

(** The second prompt answered with text that is no number, and no rate
    available. *)
Definition garbled_no_rates : session :=
  {| reply_capital_hkd := Blank; reply_ib_fx_rate := Garbled;
     reply_futu_fx_rate := Blank; reply_futu_annualized_return_usd := Blank;
     reply_futu_annualized_return_hkd := Blank; reply_preferential_rate_hkd := Blank;
     get_bond_rate_US1Y := None; get_bond_rate_US10Y := None;
     get_fed_rate := None; reply_preferred_currency := "USD" |}.

(** The default answers with the ten-year quote missing, and with only the
    fed rate missing. *)
Definition no_bond_rate : session :=
  {| reply_capital_hkd := Blank; reply_ib_fx_rate := Blank;
     reply_futu_fx_rate := Blank; reply_futu_annualized_return_usd := Blank;
     reply_futu_annualized_return_hkd := Blank; reply_preferential_rate_hkd := Blank;
     get_bond_rate_US1Y := Some 4.0; get_bond_rate_US10Y := None;
     get_fed_rate := Some 0.045; reply_preferred_currency := "USD" |}.

Definition no_fed_rate : session :=
  {| reply_capital_hkd := Blank; reply_ib_fx_rate := Blank;
     reply_futu_fx_rate := Blank; reply_futu_annualized_return_usd := Blank;
     reply_futu_annualized_return_hkd := Blank; reply_preferential_rate_hkd := Blank;
     get_bond_rate_US1Y := Some 4.0; get_bond_rate_US10Y := Some 3.9;
     get_fed_rate := None; reply_preferred_currency := "USD" |}.

(** Both HKD rates at -100% typed in at the prompts: the best HKD total is 0. *)
Definition zero_hkd_session : session :=
  {| reply_capital_hkd := Blank; reply_ib_fx_rate := Blank;
     reply_futu_fx_rate := Blank; reply_futu_annualized_return_usd := Blank;
     reply_futu_annualized_return_hkd := Number (-100);
     reply_preferential_rate_hkd := Number (-100);
     get_bond_rate_US1Y := Some 4.0; get_bond_rate_US10Y := Some 3.9;
     get_fed_rate := Some 0.045; reply_preferred_currency := "USD" |}.

(** The default scenario with a currency answer that is neither USD nor
    HKD. *)
Definition other_currency : inputs :=
  {| capital_hkd := 2000000; ib_fx_rate := 0.128; futu_fx_rate := 0.12785;
     futu_annualized_return_usd := 4.8491; futu_annualized_return_hkd := 3.8;
     preferential_rate_hkd := 3.5; bond_rate_1y := 4.0; bond_rate_10y := 3.9;
     fed_rate := 0.045; preferred_currency := "EUR" |}.

(** The default scenario with the FUTU USD return at 4%: the best bond rate
    equals the money market rate at both brokers (the fed rate less 0.005 at
    IB). *)
Definition equal_rates : inputs :=
  {| capital_hkd := 2000000; ib_fx_rate := 0.128; futu_fx_rate := 0.12785;
     futu_annualized_return_usd := 4; futu_annualized_return_hkd := 3.8;
     preferential_rate_hkd := 3.5; bond_rate_1y := 4; bond_rate_10y := 3.9;
     fed_rate := 0.045; preferred_currency := "USD" |}.

(** A four-way exact tie at 0: IB receives 0 USD, and every rate of return
    is -100%. *)
Definition tie_at_zero : inputs :=
  {| capital_hkd := 1024; ib_fx_rate := 0.001953125; futu_fx_rate := 0.5;
     futu_annualized_return_usd := -100; futu_annualized_return_hkd := -100;
     preferential_rate_hkd := -100; bond_rate_1y := -100; bond_rate_10y := -100;
     fed_rate := 0.005; preferred_currency := "USD" |}.

(** The same run from the prompts and the rate sources. *)
Definition tie_at_zero_session : session :=
  {| reply_capital_hkd := Number 1024; reply_ib_fx_rate := Number 0.001953125;
     reply_futu_fx_rate := Number 0.5;
     reply_futu_annualized_return_usd := Number (-100);
     reply_futu_annualized_return_hkd := Number (-100);
     reply_preferential_rate_hkd := Number (-100);
     get_bond_rate_US1Y := Some (-100); get_bond_rate_US10Y := Some (-100);
     get_fed_rate := Some 0.005; reply_preferred_currency := "USD" |}.

(** The two HKD totals tie for the lead at 1024, both USD totals are 0, and
    the answer is HKD. *)
Definition hkd_tie_zero_usd : inputs :=
  {| capital_hkd := 1024; ib_fx_rate := 0.001953125; futu_fx_rate := 0.5;
     futu_annualized_return_usd := -100; futu_annualized_return_hkd := 0;
     preferential_rate_hkd := 0; bond_rate_1y := -100; bond_rate_10y := -100;
     fed_rate := 0.005; preferred_currency := "HKD" |}.

(** The IB, FUTU-USD and preferential totals tie at 1024; the FUTU-HKD total
    is 2048. *)
Definition usd_tie_hk_lead : inputs :=
  {| capital_hkd := 1024; ib_fx_rate := 1.001953125; futu_fx_rate := 0.5;
     futu_annualized_return_usd := 100; futu_annualized_return_hkd := 100;
     preferential_rate_hkd := 0; bond_rate_1y := 0; bond_rate_10y := 0;
     fed_rate := 0.005; preferred_currency := "USD" |}.

(** The two HKD totals tie at 1024 below the IB total of 2048. *)
Definition hkd_tie_ib_lead : inputs :=
  {| capital_hkd := 1024; ib_fx_rate := 2.001953125; futu_fx_rate := 0.5;
     futu_annualized_return_usd := 100; futu_annualized_return_hkd := 0;
     preferential_rate_hkd := 0; bond_rate_1y := 0; bond_rate_10y := 0;
     fed_rate := 0.005; preferred_currency := "USD" |}.

(** * Properties *)

(** ** Comparisons, [max] and [min] *)

Lemma lt_iff (a b : Q) : (a <? b) = true <-> a < b.
Proof.
  unfold Py.lt. rewrite negb_true_iff, <- not_true_iff_false, Qle_bool_iff.
  split; [apply Qnot_le_lt | apply Qlt_not_le].
Qed.

Lemma ltP (a b : Q) : reflect (a < b) (a <? b).
Proof. apply iff_reflect. symmetry. apply lt_iff. Qed.

Lemma gtP (a b : Q) : reflect (b < a) (a >? b).
Proof. unfold Py.gt. apply ltP. Qed.

Lemma leP (a b : Q) : reflect (a <= b) (a <=? b).
Proof. apply iff_reflect. symmetry. apply Qle_bool_iff. Qed.

Lemma eqP (a b : Q) : reflect (a == b) (a =? b).
Proof. apply iff_reflect. symmetry. apply Qeq_bool_iff. Qed.

(** Case analysis on every test of the goal, leaving linear arithmetic. *)
Ltac py_cases :=
  repeat match goal with
    | |- context [?a >? ?b] => destruct (gtP a b)
    | |- context [?a <? ?b] => destruct (ltP a b)
    | |- context [?a <=? ?b] => destruct (leP a b)
    | |- context [?a =? ?b] => destruct (eqP a b)
    end.

Lemma max_Qmax (a b : Q) : Py.max a b == Qmax a b.
Proof.
  unfold Py.max. destruct (gtP b a) as [H | H].
  - symmetry. apply Q.max_r. lra.
  - symmetry. apply Q.max_l. lra.
Qed.

Lemma max_cases (a b : Q) :
  (a < b /\ Py.max a b = b) \/ (b <= a /\ Py.max a b = a).
Proof. unfold Py.max. destruct (gtP b a); [left | right]; split; trivial; lra. Qed.

Lemma min_cases (a b : Q) :
  (b < a /\ Py.min a b = b) \/ (a <= b /\ Py.min a b = a).
Proof. unfold Py.min. destruct (ltP b a); [left | right]; split; trivial; lra. Qed.

Lemma max_mono (a b c d : Q) : a <= c -> b <= d -> Py.max a b <= Py.max c d.
Proof. intros. unfold Py.max. py_cases; lra. Qed.

Lemma min_mono (a b c d : Q) : a <= c -> b <= d -> Py.min a b <= Py.min c d.
Proof. intros. unfold Py.min. py_cases; lra. Qed.

(** ** Fee functions *)

Lemma ib_fx_fee_mono (x1 x2 : Q) :
  x1 <= x2 -> calculate_ib_fx_fee x1 <= calculate_ib_fx_fee x2.
Proof. intros H. unfold calculate_ib_fx_fee. apply max_mono; lra. Qed.

(** The two tiers meet without a drop: the lower tier never leaves its floor
    [5], the upper tier starts above [100]. *)
Lemma ib_bond_fee_mono (x1 x2 : Q) :
  x1 <= x2 -> calculate_ib_bond_fee x1 <= calculate_ib_bond_fee x2.
Proof.
  intros H. unfold calculate_ib_bond_fee.
  destruct (leP x1 1000000) as [H1 | H1], (leP x2 1000000) as [H2 | H2].
  - apply max_mono; lra.
  - unfold Py.max. py_cases; lra.
  - lra.
  - apply max_mono; lra.
Qed.

Lemma futu_bond_fee_mono (x1 x2 : Q) :
  x1 <= x2 -> calculate_futu_bond_fee x1 <= calculate_futu_bond_fee x2.
Proof.
  intros H. unfold calculate_futu_bond_fee. cbv zeta.
  assert (Py.max (0.0008 * x1) 2 <= Py.max (0.0008 * x2) 2)
    by (apply max_mono; lra).
  assert (Py.min (Py.max (0.0004 * x1) 2) 15 <= Py.min (Py.max (0.0004 * x2) 2) 15)
    by (apply min_mono; [apply max_mono |]; lra).
  lra.
Qed.

(** C5. Fee monotonicity: for all [x2 > x1 >= 0], each of the three fee
    functions gives [x2] a fee at least as large as the fee of [x1]; this
    includes pairs that straddle the tier boundary of the IB bond fee. *)
Theorem fee_monotonicity (x1 x2 : Q) :
  0 <= x1 -> x1 < x2 ->
  calculate_ib_fx_fee x1 <= calculate_ib_fx_fee x2 /\
  calculate_ib_bond_fee x1 <= calculate_ib_bond_fee x2 /\
  calculate_futu_bond_fee x1 <= calculate_futu_bond_fee x2.
Proof.
  intros _ H. apply Qlt_le_weak in H.
  auto using ib_fx_fee_mono, ib_bond_fee_mono, futu_bond_fee_mono.
Qed.

(** Across the tier boundary of the IB bond fee: 1,000,000 and 1,000,001. *)
Lemma fee_monotonicity_witness :
  0 <= 1000000 /\ 1000000 < 1000001 /\
  calculate_ib_fx_fee 1000000 <= calculate_ib_fx_fee 1000001 /\
  calculate_ib_bond_fee 1000000 <= calculate_ib_bond_fee 1000001 /\
  calculate_futu_bond_fee 1000000 <= calculate_futu_bond_fee 1000001.
Proof.
  split; [lra |]. split; [lra |]. apply (fee_monotonicity 1000000 1000001); lra.
Defined.

(** C6. The IB bond fee is [max(0.002e-4 * faceValue, 5)] up to and including
    1,000,000, where it is 5, and [max(1e-4 * faceValue, 5)] above. *)
Theorem ib_bond_fee_tier_boundary (face_value : Q) :
  (face_value <= 1000000 ->
     calculate_ib_bond_fee face_value == Qmax (0.002e-4 * face_value) 5) /\
  (1000000 < face_value ->
     calculate_ib_bond_fee face_value == Qmax (1e-4 * face_value) 5) /\
  calculate_ib_bond_fee 1000000 == 5.
Proof.
  repeat split.
  - intros H. unfold calculate_ib_bond_fee. destruct (leP face_value 1000000); [| lra].
    rewrite max_Qmax. apply Q.max_compat; [| reflexivity].
    setoid_replace 0.002e-4 with 0.0000002 by (unfold Qeq; reflexivity). lra.
  - intros H. unfold calculate_ib_bond_fee. destruct (leP face_value 1000000); [lra |].
    rewrite max_Qmax. apply Q.max_compat; [| reflexivity].
    setoid_replace 1e-4 with 0.0001 by (unfold Qeq; reflexivity). lra.
Qed.

(** At the boundary itself, and one cent above it. *)
Lemma ib_bond_fee_tier_boundary_witness :
  (1000000 <= 1000000 /\
     calculate_ib_bond_fee 1000000 == Qmax (0.002e-4 * 1000000) 5) /\
  (1000000 < 1000000.01 /\
     calculate_ib_bond_fee 1000000.01 == Qmax (1e-4 * 1000000.01) 5).
Proof.
  split; (split; [lra |]).
  - apply (proj1 (ib_bond_fee_tier_boundary 1000000)). lra.
  - apply (proj1 (proj2 (ib_bond_fee_tier_boundary 1000000.01))). lra.
Defined.

(** C7. [calculate_usd_received] charges the fee on the converted amount
    before the fee: with a fee function [f] the result is
    [capital_hkd * fx_rate - f (capital_hkd * fx_rate)], without one it is
    [capital_hkd * fx_rate]; so it is in the run, for IB with its FX fee and
    for FUTU without a fee. *)
Theorem usd_received_fee_on_gross (capital fx_rate : Q) (f : Q -> Q) (i : inputs) :
  calculate_usd_received capital fx_rate (Some f) = capital * fx_rate - f (capital * fx_rate) /\
  calculate_usd_received capital fx_rate None = capital * fx_rate /\
  usd_received_ib i =
    capital_hkd i * ib_fx_rate i - calculate_ib_fx_fee (capital_hkd i * ib_fx_rate i) /\
  usd_received_futu i = capital_hkd i * futu_fx_rate i.
Proof. repeat split. Qed.

(** C8, as the code has it. [calculate_ib_fx_fee] does not look at the sign of
    its argument: a negative amount gets the floor fee 2, and a non-negative
    amount gets the fee the specification gives. *)
Theorem ib_fx_fee_negative_amount (usd_amount : Q) :
  (usd_amount < 0 -> calculate_ib_fx_fee usd_amount == 2) /\
  (0 <= usd_amount ->
     exists fee, ibFxFee_spec usd_amount = Some fee /\ calculate_ib_fx_fee usd_amount == fee).
Proof.
  split; intros H.
  - unfold calculate_ib_fx_fee, Py.max. py_cases; lra.
  - unfold ibFxFee_spec. destruct (ltP usd_amount 0); [lra |].
    eexists. split; [reflexivity |]. apply max_Qmax.
Qed.

Lemma ib_fx_fee_negative_amount_witness :
  (-1 < 0 /\ calculate_ib_fx_fee (-1) == 2) /\
  (0 <= 256000 /\
     exists fee, ibFxFee_spec 256000 = Some fee /\ calculate_ib_fx_fee 256000 == fee).
Proof.
  split; (split; [lra |]).
  - apply (proj1 (ib_fx_fee_negative_amount (-1))). lra.
  - apply (proj2 (ib_fx_fee_negative_amount 256000)). lra.
Defined.

(** C8, as stated, fails at [-1]: the specification's [ibFxFee] fails there,
    [calculate_ib_fx_fee] returns the fee 2. *)
Lemma ib_fx_fee_negative_amount_counterexample :
  ibFxFee_spec (-1) = None /\ calculate_ib_fx_fee (-1) == 2.
Proof. split; reflexivity. Qed.

(** C9. The fee functions are functions of every rational amount (nothing in
    them can raise), and no amount gets a fee below the floor: the IB FX fee
    is at least 2 and exactly 2 up to 100,000; the IB bond fee is at least 5
    and exactly 5 up to 1,000,000; the FUTU bond fee is at least 4 and
    exactly 4 up to 2,500.  Negative amounts and zero are among these. *)
Theorem fee_floors (x : Q) :
  (2 <= calculate_ib_fx_fee x /\ (x <= 100000 -> calculate_ib_fx_fee x == 2)) /\
  (5 <= calculate_ib_bond_fee x /\ (x <= 1000000 -> calculate_ib_bond_fee x == 5)) /\
  (4 <= calculate_futu_bond_fee x /\ (x <= 2500 -> calculate_futu_bond_fee x == 4)).
Proof.
  unfold calculate_ib_fx_fee, calculate_ib_bond_fee, calculate_futu_bond_fee,
    Py.max, Py.min.
  cbv zeta.
  repeat match goal with |- _ /\ _ => split end;
    try match goal with |- (x <= _) -> _ => intros H end; py_cases; lra.
Qed.

(** A negative amount. *)
Lemma fee_floors_witness :
  -50 <= 100000 /\
  calculate_ib_fx_fee (-50) == 2 /\
  calculate_ib_bond_fee (-50) == 5 /\
  calculate_futu_bond_fee (-50) == 4.
Proof.
  split; [lra |].
  split; [apply (proj2 (proj1 (fee_floors (-50)))); lra |].
  split; [apply (proj2 (proj1 (proj2 (fee_floors (-50))))); lra |].
  apply (proj2 (proj2 (proj2 (fee_floors (-50))))); lra.
Defined.

(** ** The run as a whole *)

(** A division is the only thing that can stop [compare], and a report shows
    what the run computed. *)
Lemma compare_report (i : inputs) (r : report) :
  compare i = Py.Ok r ->
  exchange_rate_threshold i = Py.Ok (shown_exchange_rate_threshold r) /\
  shown_data r = data i /\
  shown_final_result r = final_result i.
Proof.
  unfold compare. destruct (exchange_rate_threshold i) as [t | e]; simpl; [| discriminate].
  destruct (currency_preference i t) as [shown | e]; simpl; [| discriminate].
  intros E. injection E as <-. auto.
Qed.

Lemma compare_raises (i : inputs) (e : Py.exception) :
  compare i = Py.Raise e -> e = Py.ZeroDivisionError.
Proof.
  unfold compare, exchange_rate_threshold, currency_preference, Py.truediv.
  destruct (best_hkd_return i =? 0); simpl; [congruence |].
  destruct (preferred_currency i =? "USD")%string.
  - destruct (_ <? _); simpl; discriminate.
  - destruct (preferred_currency i =? "HKD")%string; simpl; [| discriminate].
    destruct (_ =? 0); simpl; [congruence |].
    destruct (_ <? _); simpl; discriminate.
Qed.

(** The run completes exactly when no divisor is zero: the best HKD total at
    line 193 and, when the answer is HKD, the threshold itself at line 216. *)
Lemma compare_completes (i : inputs) :
  ~ best_hkd_return i == 0 ->
  (preferred_currency i = "HKD" -> ~ best_usd_return i == 0) ->
  exists r, compare i = Py.Ok r.
Proof.
  intros Hhkd Husd.
  unfold compare, exchange_rate_threshold, currency_preference, Py.truediv.
  destruct (eqP (best_hkd_return i) 0) as [H0 | _]; [contradiction |]. simpl.
  destruct (preferred_currency i =? "USD")%string.
  - destruct (_ <? _); simpl; eauto.
  - destruct (String.eqb_spec (preferred_currency i) "HKD") as [E | _]; simpl; [| eauto].
    destruct (eqP (best_usd_return i / best_hkd_return i) 0) as [H0 | _].
    + exfalso. apply (Husd E).
      rewrite <- (Qmult_div_r (best_usd_return i) (best_hkd_return i)) by assumption.
      unfold Qdiv in H0 |- *. rewrite H0. ring.
    + simpl. destruct (_ <? _); simpl; eauto.
Qed.

Lemma div_zero_iff (a b : Q) : ~ b == 0 -> (a / b == 0 <-> a == 0).
Proof.
  intros Hb. split; intros H.
  - rewrite <- (Qmult_div_r a b) by assumption. rewrite H. ring.
  - rewrite H. field. assumption.
Qed.

(** A zero divisor at line 193 or at line 216 ends the run. *)
Lemma compare_zero_divisor (i : inputs) :
  best_hkd_return i == 0 \/
  (preferred_currency i = "HKD" /\ best_usd_return i == 0) ->
  compare i = Py.Raise Py.ZeroDivisionError.
Proof.
  intros H. unfold compare, exchange_rate_threshold, Py.truediv.
  destruct (eqP (best_hkd_return i) 0) as [| Hhkd]; [reflexivity |].
  destruct H as [H | (Ecur & Husd)]; [contradiction |].
  simpl. unfold currency_preference, Py.truediv. rewrite Ecur. simpl.
  destruct (eqP (best_usd_return i / best_hkd_return i) 0) as [| Ht];
    [reflexivity |].
  exfalso. apply Ht. apply div_zero_iff; assumption.
Qed.

(** The default scenario run from the prompts. *)
Example main_defaults :
  exists r, main defaults = Completed r /\
    compare default_scenario = Py.Ok r /\
    shown_final_result r = "FUTU HK Money Market Fund offers the better return.".
Proof.
  eexists. split; [vm_compute; reflexivity |]. split; vm_compute; reflexivity.
Qed.

(** The figures of the specification's scenario. *)
Example default_scenario_figures :
  usd_received_ib default_scenario == 255994.88 /\
  ib_money_market_return default_scenario == 10239.7952 /\
  ib_bond_return default_scenario == 10234.7952 /\
  best_ib_option default_scenario = "Money Market Fund (USD)".
Proof. repeat split; vm_compute; reflexivity. Qed.

(** The fee floors at zero and the cap of the FUTU platform fee. *)
Example fee_floor_and_cap :
  calculate_ib_fx_fee 0 == 2 /\ calculate_ib_bond_fee 0 == 5 /\
  calculate_futu_bond_fee 0 == 4 /\
  calculate_futu_bond_fee 50000 == Qmax (0.0008 * 50000) 2 + 15.
Proof. repeat split; vm_compute; reflexivity. Qed.

Example main_garbled_capital :
  main {| reply_capital_hkd := Garbled; reply_ib_fx_rate := Blank;
          reply_futu_fx_rate := Blank; reply_futu_annualized_return_usd := Blank;
          reply_futu_annualized_return_hkd := Blank; reply_preferential_rate_hkd := Blank;
          get_bond_rate_US1Y := Some 4.0; get_bond_rate_US10Y := Some 3.9;
          get_fed_rate := Some 0.045; reply_preferred_currency := "USD" |}
  = Returned "Invalid input. Please enter numeric values.".
Proof. reflexivity. Qed.

(** ** Best of two per broker (lines 141-154) *)

Lemma best_of_two (mm bond : Q) :
  (if mm >? bond then mm else bond) == Qmax mm bond /\
  ((if mm >? bond then "Money Market Fund (USD)" else "Bond (USD)")
     = "Money Market Fund (USD)" <-> bond < mm) /\
  ((if mm >? bond then "Money Market Fund (USD)" else "Bond (USD)")
     = "Bond (USD)" <-> mm <= bond).
Proof.
  destruct (gtP mm bond) as [H | H].
  - split; [symmetry; apply Q.max_l; lra |].
    split; split; intros; trivial; try discriminate; lra.
  - split; [symmetry; apply Q.max_r; lra |].
    split; split; intros; trivial; try discriminate; lra.
Qed.

(** C1, as the code has it. For IB, and in the same way for FUTU on the USD
    side, the best return is the larger of the money-market return and the
    bond return; the option is Money Market exactly when the money-market
    return is strictly greater, and Bond otherwise: on exact equality of the
    two returns the [else] branch runs and the option is Bond. *)
Theorem best_of_two_selection (i : inputs) :
  (best_ib_return i == Qmax (ib_money_market_return i) (ib_bond_return i) /\
   (best_ib_option i = "Money Market Fund (USD)" <->
      ib_bond_return i < ib_money_market_return i) /\
   (best_ib_option i = "Bond (USD)" <->
      ib_money_market_return i <= ib_bond_return i) /\
   (ib_money_market_return i == ib_bond_return i -> best_ib_option i = "Bond (USD)")) /\
  (best_futu_return_usd i == Qmax (futu_money_market_return_usd i) (futu_bond_return i) /\
   (best_futu_option_usd i = "Money Market Fund (USD)" <->
      futu_bond_return i < futu_money_market_return_usd i) /\
   (best_futu_option_usd i = "Bond (USD)" <->
      futu_money_market_return_usd i <= futu_bond_return i) /\
   (futu_money_market_return_usd i == futu_bond_return i ->
      best_futu_option_usd i = "Bond (USD)")).
Proof.
  split.
  - destruct (best_of_two (ib_money_market_return i) (ib_bond_return i))
      as (Hmax & Hmm & Hbond).
    split; [exact Hmax |]. split; [exact Hmm |]. split; [exact Hbond |].
    intros E. apply Hbond. lra.
  - destruct (best_of_two (futu_money_market_return_usd i) (futu_bond_return i))
      as (Hmax & Hmm & Hbond).
    split; [exact Hmax |]. split; [exact Hmm |]. split; [exact Hbond |].
    intros E. apply Hbond. lra.
Qed.

(** The tie at both brokers, and the default scenario, where the money
    market is strictly better at both. *)
Lemma best_of_two_selection_witness :
  (ib_money_market_return tied_returns == ib_bond_return tied_returns /\
   best_ib_option tied_returns = "Bond (USD)") /\
  (futu_money_market_return_usd tied_returns == futu_bond_return tied_returns /\
   best_futu_option_usd tied_returns = "Bond (USD)") /\
  (ib_bond_return default_scenario < ib_money_market_return default_scenario /\
   best_ib_option default_scenario = "Money Market Fund (USD)").
Proof.
  split; [| split].
  - split; [vm_compute; reflexivity |].
    apply (proj2 (proj2 (proj2 (proj1 (best_of_two_selection tied_returns))))).
    vm_compute; reflexivity.
  - split; [vm_compute; reflexivity |].
    apply (proj2 (proj2 (proj2 (proj2 (best_of_two_selection tied_returns))))).
    vm_compute; reflexivity.
  - split; [vm_compute; reflexivity |].
    apply (proj1 (proj2 (proj1 (best_of_two_selection default_scenario)))).
    vm_compute; reflexivity.
Defined.

(** C1, as stated, fails on a tie: with both returns of IB equal to 0 and
    both returns of FUTU equal to 4, the option chosen is Bond at both
    brokers, not Money Market. *)
Lemma best_of_two_tie_counterexample :
  (ib_money_market_return tied_returns == 0 /\
   ib_bond_return tied_returns == 0 /\
   best_ib_option tied_returns = "Bond (USD)" /\
   best_ib_option tied_returns <> "Money Market Fund (USD)") /\
  (futu_money_market_return_usd tied_returns == 4 /\
   futu_bond_return tied_returns == 4 /\
   best_futu_option_usd tied_returns = "Bond (USD)" /\
   best_futu_option_usd tied_returns <> "Money Market Fund (USD)").
Proof.
  repeat match goal with |- _ /\ _ => split end;
    try (vm_compute; reflexivity); vm_compute; discriminate.
Qed.

(** ** The exchange-rate threshold (lines 189-193) *)

Lemma div_neg (a b : Q) : 0 < a -> b < 0 -> a / b < 0.
Proof.
  intros Ha Hb.
  assert (Hpos : 0 < a / - b) by (apply Qlt_shift_div_l; lra).
  assert (E : a / b == - (a / - b)) by (field; lra).
  lra.
Qed.

(** C2, as the code has it. There is no [DegenerateComparisonError] and no
    test of the sign of the best HKD total.  When that total is exactly zero
    the division of line 193 raises [ZeroDivisionError]: no threshold is
    produced and the run ends there.  When it is negative the division goes
    through: the threshold is the quotient of the two best totals, a negative
    rate whenever the best USD total is positive. *)
Theorem threshold_on_nonpositive_hkd_total (i : inputs) :
  (best_hkd_return i == 0 ->
     exchange_rate_threshold i = Py.Raise Py.ZeroDivisionError /\
     compare i = Py.Raise Py.ZeroDivisionError) /\
  (best_hkd_return i < 0 ->
     exchange_rate_threshold i = Py.Ok (best_usd_return i / best_hkd_return i) /\
     (0 < best_usd_return i -> best_usd_return i / best_hkd_return i < 0)).
Proof.
  split; intros H.
  - assert (E : exchange_rate_threshold i = Py.Raise Py.ZeroDivisionError).
    { unfold exchange_rate_threshold, Py.truediv.
      destruct (eqP (best_hkd_return i) 0); [reflexivity | contradiction]. }
    split; [exact E |]. unfold compare. rewrite E. reflexivity.
  - split.
    + unfold exchange_rate_threshold, Py.truediv.
      destruct (eqP (best_hkd_return i) 0); [lra | reflexivity].
    + intros Husd. apply div_neg; assumption.
Qed.

(** Both HKD totals zero (both HKD rates at -100%), and both negative. *)
Lemma threshold_on_nonpositive_hkd_total_witness :
  (best_hkd_return zero_hkd == 0 /\
   compare zero_hkd = Py.Raise Py.ZeroDivisionError) /\
  (best_hkd_return negative_hkd < 0 /\
   0 < best_usd_return negative_hkd /\
   best_usd_return negative_hkd / best_hkd_return negative_hkd < 0).
Proof.
  split.
  - split; [vm_compute; reflexivity |].
    apply (proj1 (threshold_on_nonpositive_hkd_total zero_hkd)). vm_compute; reflexivity.
  - split; [vm_compute; reflexivity |]. split; [vm_compute; reflexivity |].
    apply (proj2 (threshold_on_nonpositive_hkd_total negative_hkd));
      vm_compute; reflexivity.
Defined.

(** C2, as stated, fails on a negative best HKD total: with both HKD totals
    at -1024 and both USD totals at 1024 the specification's threshold is the
    error, while the run completes and reports the threshold -1. *)
Lemma degenerate_comparison_counterexample :
  best_hkd_return negative_hkd == -1024 /\
  best_usd_return negative_hkd == 1024 /\
  exchangeRateThreshold_spec
    (best_usd_return negative_hkd) (best_hkd_return negative_hkd) = None /\
  exists r, compare negative_hkd = Py.Ok r /\
    exchange_rate_threshold negative_hkd = Py.Ok (shown_exchange_rate_threshold r) /\
    shown_exchange_rate_threshold r == -1.
Proof.
  split; [vm_compute; reflexivity |]. split; [vm_compute; reflexivity |].
  split; [vm_compute; reflexivity |].
  eexists. split; [vm_compute; reflexivity |].
  split; vm_compute; reflexivity.
Qed.

(** C4. Threshold identity: whenever the best HKD total is positive, line 193
    produces a threshold, and the threshold times the best HKD total is the
    best USD total, where the best USD total is the larger of the IB and
    FUTU-USD totals and the best HKD total is the larger of the preferential
    and FUTU-HKD totals. *)
Theorem threshold_identity (i : inputs) :
  0 < best_hkd_return i ->
  exists threshold,
    exchange_rate_threshold i = Py.Ok threshold /\
    threshold * best_hkd_return i == best_usd_return i /\
    best_usd_return i == Qmax (total_ib_return i) (total_futu_return_usd i) /\
    best_hkd_return i == Qmax (total_preferential_return i) (total_futu_return_hkd i).
Proof.
  intros H. exists (best_usd_return i / best_hkd_return i).
  split; [| split; [| split]].
  - unfold exchange_rate_threshold, Py.truediv.
    destruct (eqP (best_hkd_return i) 0); [lra | reflexivity].
  - field. lra.
  - apply max_Qmax.
  - apply max_Qmax.
Qed.

Lemma threshold_identity_witness :
  0 < best_hkd_return default_scenario /\
  exists threshold,
    exchange_rate_threshold default_scenario = Py.Ok threshold /\
    threshold * best_hkd_return default_scenario == best_usd_return default_scenario /\
    best_usd_return default_scenario ==
      Qmax (total_ib_return default_scenario) (total_futu_return_usd default_scenario) /\
    best_hkd_return default_scenario ==
      Qmax (total_preferential_return default_scenario)
           (total_futu_return_hkd default_scenario).
Proof.
  split; [vm_compute; reflexivity |].
  apply (threshold_identity default_scenario). vm_compute; reflexivity.
Defined.

(** ** The final selection (lines 226-233) and the method labels (lines 196-204) *)

Lemma dominatesP (x a b c : Q) :
  reflect (x > a /\ x > b /\ x > c) ((x >? a) && (x >? b) && (x >? c)).
Proof.
  destruct (gtP x a), (gtP x b), (gtP x c); simpl; constructor; tauto.
Qed.

(** The four sentences are pairwise different, whatever the option named. *)
Lemma best_ib_option_cases (i : inputs) :
  best_ib_option i = "Money Market Fund (USD)" \/ best_ib_option i = "Bond (USD)".
Proof. unfold best_ib_option. destruct (_ >? _); auto. Qed.

Lemma best_futu_option_usd_cases (i : inputs) :
  best_futu_option_usd i = "Money Market Fund (USD)" \/
  best_futu_option_usd i = "Bond (USD)".
Proof. unfold best_futu_option_usd. destruct (_ >? _); auto. Qed.

Ltac option_cases i :=
  let Ei := fresh "Ei" in
  let Ef := fresh "Ef" in
  destruct (best_ib_option_cases i) as [Ei | Ei],
           (best_futu_option_usd_cases i) as [Ef | Ef];
  rewrite ?Ei, ?Ef.

(** The selection read off its three tests, in source order. *)
Lemma final_result_cases (i : inputs) :
  (ib_dominates i /\
   final_result i =
     "IB offers the better return by investing in " ++ best_ib_option i ++ ".") \/
  (~ ib_dominates i /\ futu_usd_dominates i /\
   final_result i =
     "FUTU offers the better return by investing in " ++ best_futu_option_usd i ++ ".") \/
  (~ ib_dominates i /\ ~ futu_usd_dominates i /\ futu_hk_dominates i /\
   final_result i = "FUTU HK Money Market Fund offers the better return.") \/
  (~ ib_dominates i /\ ~ futu_usd_dominates i /\ ~ futu_hk_dominates i /\
   final_result i = "SCB Preferential Rate offers the better return.").
Proof.
  unfold final_result, ib_dominates, futu_usd_dominates, futu_hk_dominates.
  destruct (dominatesP (total_ib_return i) (total_futu_return_usd i)
              (total_preferential_return i) (total_futu_return_hkd i)); [auto |].
  destruct (dominatesP (total_futu_return_usd i) (total_ib_return i)
              (total_preferential_return i) (total_futu_return_hkd i)); [auto |].
  destruct (dominatesP (total_futu_return_hkd i) (total_ib_return i)
              (total_preferential_return i) (total_futu_return_usd i)); auto 10.
Qed.

(** C3, as the code has it. IB, FUTU-USD and FUTU-HK-HKD are declared the
    overall best exactly when their total is strictly greater than the three
    other totals (the three tests are exclusive, so their source order IB,
    FUTU-USD, FUTU-HK-HKD decides nothing more); in every other case, and so
    whenever no total is strictly greater than all others, as in a four-way
    exact tie, the selection is SCB Preferential Rate.  The selection itself
    raises nothing and a run that reaches it reports it; but a run does not
    always reach it: it ends in [ZeroDivisionError] before the selection
    when the best HKD total is zero (line 193) or when the answer is HKD and
    the best USD total is zero (line 216), and it reaches the selection in
    every other case. *)
Theorem global_winner_selection (i : inputs) :
  (final_result i =
     "IB offers the better return by investing in " ++ best_ib_option i ++ "."
   <-> ib_dominates i) /\
  (final_result i =
     "FUTU offers the better return by investing in " ++ best_futu_option_usd i ++ "."
   <-> futu_usd_dominates i) /\
  (final_result i = "FUTU HK Money Market Fund offers the better return."
   <-> futu_hk_dominates i) /\
  (final_result i = "SCB Preferential Rate offers the better return."
   <-> ~ ib_dominates i /\ ~ futu_usd_dominates i /\ ~ futu_hk_dominates i) /\
  (~ ib_dominates i /\ ~ futu_usd_dominates i /\
   ~ futu_hk_dominates i /\ ~ scb_dominates i ->
   final_result i = "SCB Preferential Rate offers the better return.") /\
  (total_ib_return i == total_futu_return_usd i /\
   total_ib_return i == total_preferential_return i /\
   total_ib_return i == total_futu_return_hkd i ->
   final_result i = "SCB Preferential Rate offers the better return.") /\
  (forall r, compare i = Py.Ok r -> shown_final_result r = final_result i) /\
  (~ best_hkd_return i == 0 ->
   (preferred_currency i = "HKD" -> ~ best_usd_return i == 0) ->
   exists r, compare i = Py.Ok r /\ shown_final_result r = final_result i) /\
  (best_hkd_return i == 0 \/
   (preferred_currency i = "HKD" /\ best_usd_return i == 0) ->
   compare i = Py.Raise Py.ZeroDivisionError).
Proof.
  assert (Hx1 : ib_dominates i -> ~ futu_usd_dominates i)
    by (unfold ib_dominates, futu_usd_dominates; intros ? ?; lra).
  assert (Hx2 : ib_dominates i -> ~ futu_hk_dominates i)
    by (unfold ib_dominates, futu_hk_dominates; intros ? ?; lra).
  assert (Hx3 : futu_usd_dominates i -> ~ futu_hk_dominates i)
    by (unfold futu_usd_dominates, futu_hk_dominates; intros ? ?; lra).
  assert (Hscb : ~ ib_dominates i /\ ~ futu_usd_dominates i /\ ~ futu_hk_dominates i ->
                 final_result i = "SCB Preferential Rate offers the better return.").
  { destruct (final_result_cases i) as [H | [H | [H | H]]]; tauto. }
  split; [| split; [| split; [| split; [| split; [| split; [| split; [| split]]]]]]].
  - destruct (final_result_cases i) as [H | [H | [H | H]]];
      destruct H as (? & H); repeat (destruct H as (? & H)); rewrite H;
      (split; [| tauto]); intros E; trivial; exfalso;
      revert E; option_cases i; discriminate.
  - destruct (final_result_cases i) as [H | [H | [H | H]]];
      destruct H as (? & H); repeat (destruct H as (? & H)); rewrite H;
      (split; [| tauto]); intros E; trivial; exfalso;
      revert E; option_cases i; discriminate.
  - destruct (final_result_cases i) as [H | [H | [H | H]]];
      destruct H as (? & H); repeat (destruct H as (? & H)); rewrite H;
      (split; [| tauto]); intros E; trivial; exfalso;
      revert E; option_cases i; discriminate.
  - split; [| exact Hscb].
    destruct (final_result_cases i) as [H | [H | [H | H]]];
      destruct H as (? & H); repeat (destruct H as (? & H)); rewrite H;
      intros E; try tauto; exfalso; revert E; option_cases i; discriminate.
  - tauto.
  - intros (E1 & E2 & E3). apply Hscb.
    unfold ib_dominates, futu_usd_dominates, futu_hk_dominates.
    repeat split; intros ?; lra.
  - intros r E. apply (compare_report i r E).
  - intros Hhkd Husd. destruct (compare_completes i Hhkd Husd) as [r E].
    exists r. split; [exact E | apply (compare_report i r E)].
  - apply compare_zero_divisor.
Qed.

(** A four-way exact tie at 1024, with the answer HKD: the run reaches the
    selection.  A four-way exact tie at 0: it does not. *)
Lemma global_winner_selection_witness :
  ((total_ib_return tied_totals == total_futu_return_usd tied_totals /\
    total_ib_return tied_totals == total_preferential_return tied_totals /\
    total_ib_return tied_totals == total_futu_return_hkd tied_totals) /\
   final_result tied_totals = "SCB Preferential Rate offers the better return." /\
   exists r, compare tied_totals = Py.Ok r /\
     shown_final_result r = final_result tied_totals) /\
  (best_hkd_return tie_at_zero == 0 /\
   compare tie_at_zero = Py.Raise Py.ZeroDivisionError).
Proof.
  split;
    [| split; [vm_compute; reflexivity |];
       apply (proj2 (proj2 (proj2 (proj2 (proj2 (proj2 (proj2 (proj2
                (global_winner_selection tie_at_zero)))))))));
       left; vm_compute; reflexivity].
  destruct (global_winner_selection tied_totals)
    as (_ & _ & _ & _ & _ & Htie & _ & Hrun & _).
  assert (T : total_ib_return tied_totals == total_futu_return_usd tied_totals /\
              total_ib_return tied_totals == total_preferential_return tied_totals /\
              total_ib_return tied_totals == total_futu_return_hkd tied_totals)
    by (repeat split; vm_compute; reflexivity).
  split; [exact T |]. split; [exact (Htie T) |].
  apply Hrun.
  - intros E. vm_compute in E. discriminate.
  - intros _ E. vm_compute in E. discriminate.
Defined.

(** C3, as stated, fails where a division stops the run before the
    selection.  In a four-way exact tie at 0 no total is strictly greater
    than the others, and the run raises [ZeroDivisionError] at line 193
    instead of selecting SCB.  With the two HKD totals tied for the lead at
    1024, both USD totals at 0 and the answer HKD, the run raises it at line
    216. *)
Lemma global_winner_raises_counterexample :
  (total_ib_return tie_at_zero == 0 /\
   total_futu_return_usd tie_at_zero == 0 /\
   total_preferential_return tie_at_zero == 0 /\
   total_futu_return_hkd tie_at_zero == 0 /\
   compare tie_at_zero = Py.Raise Py.ZeroDivisionError /\
   main tie_at_zero_session = Uncaught Py.ZeroDivisionError) /\
  (total_ib_return hkd_tie_zero_usd == 0 /\
   total_futu_return_usd hkd_tie_zero_usd == 0 /\
   total_preferential_return hkd_tie_zero_usd == 1024 /\
   total_futu_return_hkd hkd_tie_zero_usd == 1024 /\
   (exists threshold,
      exchange_rate_threshold hkd_tie_zero_usd = Py.Ok threshold /\ threshold == 0) /\
   compare hkd_tie_zero_usd = Py.Raise Py.ZeroDivisionError).
Proof.
  repeat match goal with
    | |- _ /\ _ => split
    | |- exists _, _ => eexists
    end; vm_compute; reflexivity.
Qed.

Lemma best_usd_method_iff (i : inputs) :
  best_usd_method i = "IB with " ++ best_ib_option i <->
  total_futu_return_usd i <= total_ib_return i.
Proof.
  unfold best_usd_method, best_usd_return, Py.max.
  destruct (gtP (total_futu_return_usd i) (total_ib_return i)) as [H | H].
  - destruct (eqP (total_futu_return_usd i) (total_ib_return i)) as [E | _]; [lra |].
    split; [| lra]. option_cases i; discriminate.
  - destruct (eqP (total_ib_return i) (total_ib_return i)) as [_ | E];
      [| exfalso; apply E; reflexivity].
    split; [lra | trivial].
Qed.

Lemma best_hkd_method_iff (i : inputs) :
  best_hkd_method i = "SCB Preferential Rate" <->
  total_futu_return_hkd i <= total_preferential_return i.
Proof.
  unfold best_hkd_method, best_hkd_return, Py.max.
  destruct (gtP (total_futu_return_hkd i) (total_preferential_return i)) as [H | H].
  - destruct (eqP (total_futu_return_hkd i) (total_preferential_return i)) as [E | _];
      [lra |].
    split; [discriminate | lra].
  - destruct (eqP (total_preferential_return i) (total_preferential_return i))
      as [_ | E]; [| exfalso; apply E; reflexivity].
    split; [lra | trivial].
Qed.

(** C10, as the code has it. The method labels have their own tie
    preference: when the IB total equals the FUTU-USD total the best USD
    method is IB (the label is IB exactly when the FUTU-USD total is not
    strictly greater), and when the preferential total equals the FUTU-HKD
    total the best HKD method is SCB Preferential Rate (exactly when the
    FUTU-HKD total is not strictly greater).  The labels look only at their
    own pair of totals.  The final selection on the same tie is not always
    SCB: tied totals cannot be strictly greatest, so on a USD tie it is the
    FUTU HK fund when the FUTU-HKD total is strictly greatest and SCB
    otherwise, and on an HKD tie it is IB or FUTU when that total is
    strictly greatest and SCB otherwise. *)
Theorem method_label_ties (i : inputs) :
  (total_ib_return i == total_futu_return_usd i ->
     best_usd_method i = "IB with " ++ best_ib_option i) /\
  (total_preferential_return i == total_futu_return_hkd i ->
     best_hkd_method i = "SCB Preferential Rate") /\
  (best_usd_method i = "IB with " ++ best_ib_option i <->
     total_futu_return_usd i <= total_ib_return i) /\
  (best_hkd_method i = "SCB Preferential Rate" <->
     total_futu_return_hkd i <= total_preferential_return i) /\
  (total_ib_return i == total_futu_return_usd i ->
     ~ futu_hk_dominates i ->
     final_result i = "SCB Preferential Rate offers the better return.") /\
  (total_preferential_return i == total_futu_return_hkd i ->
     ~ ib_dominates i -> ~ futu_usd_dominates i ->
     final_result i = "SCB Preferential Rate offers the better return.") /\
  (total_ib_return i == total_futu_return_usd i ->
     futu_hk_dominates i ->
     final_result i = "FUTU HK Money Market Fund offers the better return.") /\
  (total_preferential_return i == total_futu_return_hkd i ->
     ib_dominates i ->
     final_result i =
       "IB offers the better return by investing in " ++ best_ib_option i ++ ".") /\
  (total_preferential_return i == total_futu_return_hkd i ->
     futu_usd_dominates i ->
     final_result i =
       "FUTU offers the better return by investing in "
         ++ best_futu_option_usd i ++ ".").
Proof.
  split; [| split; [| split; [| split; [| split; [| split; [| split; [| split]]]]]]].
  - intros E. apply best_usd_method_iff. lra.
  - intros E. apply best_hkd_method_iff. lra.
  - apply best_usd_method_iff.
  - apply best_hkd_method_iff.
  - intros E Hhk.
    destruct (final_result_cases i) as [H | [H | [H | H]]];
      [exfalso | exfalso | tauto | tauto].
    + destruct H as (D & _). unfold ib_dominates in D. lra.
    + destruct H as (_ & D & _). unfold futu_usd_dominates in D. lra.
  - intros E Hib Hfutu.
    destruct (final_result_cases i) as [H | [H | [H | H]]];
      [tauto | tauto | exfalso | tauto].
    destruct H as (_ & _ & D & _). unfold futu_hk_dominates in D. lra.
  - intros E Hhk.
    destruct (final_result_cases i) as [H | [H | [H | H]]];
      [exfalso | exfalso | tauto | tauto].
    + destruct H as (D & _). unfold ib_dominates in D. lra.
    + destruct H as (_ & D & _). unfold futu_usd_dominates in D. lra.
  - intros E Hib.
    destruct (final_result_cases i) as [H | [H | [H | H]]]; tauto.
  - intros E Hfutu.
    destruct (final_result_cases i) as [H | [H | [H | H]]];
      [exfalso | tauto | tauto | tauto].
    destruct H as (D & _). unfold ib_dominates, futu_usd_dominates in *. lra.
Qed.

(** The four-way tie: both labels name the first of their pair, the final
    selection names SCB.  A USD tie below the FUTU-HKD total, and an HKD tie
    below the IB total: the final selection names the leader. *)
Lemma method_label_ties_witness :
  ((total_ib_return tied_totals == total_futu_return_usd tied_totals /\
    best_usd_method tied_totals = "IB with Money Market Fund (USD)") /\
   (total_preferential_return tied_totals == total_futu_return_hkd tied_totals /\
    best_hkd_method tied_totals = "SCB Preferential Rate") /\
   (~ futu_hk_dominates tied_totals /\
    final_result tied_totals = "SCB Preferential Rate offers the better return.")) /\
  (total_ib_return usd_tie_hk_lead == total_futu_return_usd usd_tie_hk_lead /\
   futu_hk_dominates usd_tie_hk_lead /\
   final_result usd_tie_hk_lead =
     "FUTU HK Money Market Fund offers the better return.") /\
  (total_preferential_return hkd_tie_ib_lead == total_futu_return_hkd hkd_tie_ib_lead /\
   ib_dominates hkd_tie_ib_lead /\
   final_result hkd_tie_ib_lead =
     "IB offers the better return by investing in Money Market Fund (USD).").
Proof.
  split; [| split].
  2: { destruct (method_label_ties usd_tie_hk_lead)
         as (_ & _ & _ & _ & _ & _ & Hhk & _).
       assert (E : total_ib_return usd_tie_hk_lead == total_futu_return_usd usd_tie_hk_lead)
         by (vm_compute; reflexivity).
       assert (D : futu_hk_dominates usd_tie_hk_lead)
         by (repeat split; vm_compute; reflexivity).
       split; [exact E |]. split; [exact D | exact (Hhk E D)]. }
  2: { destruct (method_label_ties hkd_tie_ib_lead)
         as (_ & _ & _ & _ & _ & _ & _ & Hib & _).
       assert (E : total_preferential_return hkd_tie_ib_lead
                   == total_futu_return_hkd hkd_tie_ib_lead)
         by (vm_compute; reflexivity).
       assert (D : ib_dominates hkd_tie_ib_lead)
         by (repeat split; vm_compute; reflexivity).
       split; [exact E |]. split; [exact D | exact (Hib E D)]. }
  destruct (method_label_ties tied_totals) as (Husd & Hhkd & _ & _ & Hfinal & _).
  assert (Eusd : total_ib_return tied_totals == total_futu_return_usd tied_totals)
    by (vm_compute; reflexivity).
  assert (Ehkd : total_preferential_return tied_totals == total_futu_return_hkd tied_totals)
    by (vm_compute; reflexivity).
  assert (Nhk : ~ futu_hk_dominates tied_totals).
  { intros (D & _). vm_compute in D. discriminate. }
  split; [split; [exact Eusd | exact (Husd Eusd)] |].
  split; [split; [exact Ehkd | exact (Hhkd Ehkd)] |].
  split; [exact Nhk | exact (Hfinal Eusd Nhk)].
Defined.

(** C10, as stated, fails on a USD tie below the FUTU-HKD total: with the IB,
    FUTU-USD and preferential totals at 1024 and the FUTU-HKD total at 2048,
    the best USD method is IB and the final selection on this tie is the
    FUTU HK fund, not SCB. *)
Lemma method_label_ties_counterexample :
  total_ib_return usd_tie_hk_lead == 1024 /\
  total_futu_return_usd usd_tie_hk_lead == 1024 /\
  total_preferential_return usd_tie_hk_lead == 1024 /\
  total_futu_return_hkd usd_tie_hk_lead == 2048 /\
  best_usd_method usd_tie_hk_lead = "IB with Money Market Fund (USD)" /\
  final_result usd_tie_hk_lead = "FUTU HK Money Market Fund offers the better return." /\
  final_result usd_tie_hk_lead <> "SCB Preferential Rate offers the better return.".
Proof.
  repeat match goal with |- _ /\ _ => split end;
    try (vm_compute; reflexivity); vm_compute; discriminate.
Qed.

(** * Further properties of the code *)

(** ** The fee schedules in closed form (lines 37-49) *)

(** X1. The lower tier of the IB bond fee never leaves its floor and the
    upper tier never touches it: above 1,000,000 the fee is exactly 0.0001
    times the face value, so crossing the boundary raises the fee from 5 to
    more than 100. *)
Theorem ib_bond_fee_jump (x y : Q) :
  x <= 1000000 -> 1000000 < y ->
  calculate_ib_bond_fee x == 5 /\
  calculate_ib_bond_fee y == 0.0001 * y /\
  95 < calculate_ib_bond_fee y - calculate_ib_bond_fee x.
Proof.
  intros Hx Hy. unfold calculate_ib_bond_fee.
  destruct (leP x 1000000); [| lra]. destruct (leP y 1000000); [lra |].
  unfold Py.max. py_cases; repeat split; lra.
Qed.

Lemma ib_bond_fee_jump_witness :
  1000000 <= 1000000 /\ 1000000 < 1000000.01 /\
  calculate_ib_bond_fee 1000000 == 5 /\
  calculate_ib_bond_fee 1000000.01 == 0.0001 * 1000000.01 /\
  95 < calculate_ib_bond_fee 1000000.01 - calculate_ib_bond_fee 1000000.
Proof.
  split; [lra |]. split; [lra |].
  apply (ib_bond_fee_jump 1000000 1000000.01); lra.
Defined.

(** X2. The FUTU bond fee in its four regions: 4 up to 2,500; commission
    proportional and platform fee at its floor up to 5,000; both
    proportional up to 37,500; from there on the platform fee is capped at
    15. *)
Theorem futu_bond_fee_regions (x : Q) :
  (x <= 2500 -> calculate_futu_bond_fee x == 4) /\
  (2500 <= x <= 5000 -> calculate_futu_bond_fee x == 0.0008 * x + 2) /\
  (5000 <= x <= 37500 -> calculate_futu_bond_fee x == 0.0012 * x) /\
  (37500 <= x -> calculate_futu_bond_fee x == 0.0008 * x + 15).
Proof.
  unfold calculate_futu_bond_fee, Py.max, Py.min. cbv zeta.
  split; [| split; [| split]]; intros H; py_cases; lra.
Qed.

Lemma futu_bond_fee_regions_witness :
  (2500 <= 4000 <= 5000 /\ calculate_futu_bond_fee 4000 == 0.0008 * 4000 + 2) /\
  (5000 <= 20000 <= 37500 /\ calculate_futu_bond_fee 20000 == 0.0012 * 20000) /\
  (37500 <= 255700 /\ calculate_futu_bond_fee 255700 == 0.0008 * 255700 + 15).
Proof.
  split; [| split]; (split; [lra |]).
  - apply (proj1 (proj2 (futu_bond_fee_regions 4000))). lra.
  - apply (proj1 (proj2 (proj2 (futu_bond_fee_regions 20000)))). lra.
  - apply (proj2 (proj2 (proj2 (futu_bond_fee_regions 255700)))). lra.
Defined.

(** ** The IB conversion (lines 37-38, 51-56, 108) *)

(** X3. What IB pays out for a converted amount: the amount less 2 up to
    100,000, and 99.998% of the amount from there on. *)
Theorem usd_received_ib_closed_form (i : inputs) :
  (capital_hkd i * ib_fx_rate i <= 100000 ->
     usd_received_ib i == capital_hkd i * ib_fx_rate i - 2) /\
  (100000 <= capital_hkd i * ib_fx_rate i ->
     usd_received_ib i == 0.99998 * (capital_hkd i * ib_fx_rate i)).
Proof.
  unfold usd_received_ib, calculate_usd_received, calculate_ib_fx_fee, Py.max.
  cbv zeta. split; intros H; py_cases; lra.
Qed.

Lemma usd_received_ib_closed_form_witness :
  (capital_hkd tied_totals * ib_fx_rate tied_totals <= 100000 /\
   usd_received_ib tied_totals ==
     capital_hkd tied_totals * ib_fx_rate tied_totals - 2) /\
  (100000 <= capital_hkd default_scenario * ib_fx_rate default_scenario /\
   usd_received_ib default_scenario ==
     0.99998 * (capital_hkd default_scenario * ib_fx_rate default_scenario)).
Proof.
  split; (split; [vm_compute; discriminate |]).
  - apply (proj1 (usd_received_ib_closed_form tied_totals)). vm_compute; discriminate.
  - apply (proj2 (usd_received_ib_closed_form default_scenario)).
    vm_compute; discriminate.
Defined.

(** X4. The floor of the FX fee can exceed the amount converted: the USD
    received at IB is negative exactly when the converted amount is below
    2, and zero exactly when it is 2. *)
Theorem usd_received_ib_sign (i : inputs) :
  (usd_received_ib i < 0 <-> capital_hkd i * ib_fx_rate i < 2) /\
  (usd_received_ib i == 0 <-> capital_hkd i * ib_fx_rate i == 2).
Proof.
  unfold usd_received_ib, calculate_usd_received, calculate_ib_fx_fee, Py.max.
  cbv zeta. split; split; py_cases; intros H; lra.
Qed.

(** X5. The FX fee never turns a larger converted amount into a smaller
    payout: a converted amount at least as large gives at least as many USD
    at IB. *)
Theorem usd_received_ib_monotone (capital1 fx_rate1 capital2 fx_rate2 : Q) :
  capital1 * fx_rate1 <= capital2 * fx_rate2 ->
  calculate_usd_received capital1 fx_rate1 (Some calculate_ib_fx_fee) <=
  calculate_usd_received capital2 fx_rate2 (Some calculate_ib_fx_fee).
Proof.
  intros H. unfold calculate_usd_received, calculate_ib_fx_fee, Py.max.
  cbv zeta. py_cases; lra.
Qed.

(** Across the point where the fee leaves its floor. *)
Lemma usd_received_ib_monotone_witness :
  99999 * 1 <= 100001 * 1 /\
  calculate_usd_received 99999 1 (Some calculate_ib_fx_fee) <=
  calculate_usd_received 100001 1 (Some calculate_ib_fx_fee).
Proof.
  split; [lra |]. apply (usd_received_ib_monotone 99999 1 100001 1). lra.
Defined.

(** ** The IB money market return (lines 58-59, 116) *)

(** X6. The 50 basis points IB keeps: on a positive principal the money
    market return is negative exactly when the fed rate is below 0.005, and
    zero exactly at 0.005. *)
Theorem ib_money_market_return_sign (principal_usd fed_rate : Q) :
  0 < principal_usd ->
  (calculate_ib_money_market_return principal_usd fed_rate < 0 <-> fed_rate < 0.005) /\
  (calculate_ib_money_market_return principal_usd fed_rate == 0 <-> fed_rate == 0.005).
Proof.
  intros H. unfold calculate_ib_money_market_return.
  split; split; intros H'; nra.
Qed.

Lemma ib_money_market_return_sign_witness :
  0 < 1000 /\
  (calculate_ib_money_market_return 1000 0.004 < 0 <-> 0.004 < 0.005) /\
  (calculate_ib_money_market_return 1000 0.004 == 0 <-> 0.004 == 0.005).
Proof.
  split; [lra |]. apply (ib_money_market_return_sign 1000 0.004). lra.
Defined.

(** ** The table and the best totals (lines 141-190) *)

Lemma total_ib_cases (i : inputs) :
  (ib_bond_return i < ib_money_market_return i /\
   best_ib_option i = "Money Market Fund (USD)" /\
   total_ib_return i = usd_received_ib i + ib_money_market_return i) \/
  (ib_money_market_return i <= ib_bond_return i /\
   best_ib_option i = "Bond (USD)" /\
   total_ib_return i = usd_received_ib i + ib_bond_return i).
Proof.
  unfold total_ib_return, best_ib_return, best_ib_option.
  destruct (gtP (ib_money_market_return i) (ib_bond_return i));
    [left | right]; repeat split; trivial; lra.
Qed.

Lemma total_futu_usd_cases (i : inputs) :
  (futu_bond_return i < futu_money_market_return_usd i /\
   best_futu_option_usd i = "Money Market Fund (USD)" /\
   total_futu_return_usd i = usd_received_futu i + futu_money_market_return_usd i) \/
  (futu_money_market_return_usd i <= futu_bond_return i /\
   best_futu_option_usd i = "Bond (USD)" /\
   total_futu_return_usd i = usd_received_futu i + futu_bond_return i).
Proof.
  unfold total_futu_return_usd, best_futu_return_usd, best_futu_option_usd.
  destruct (gtP (futu_money_market_return_usd i) (futu_bond_return i));
    [left | right]; repeat split; trivial; lra.
Qed.

Lemma best_usd_cases (i : inputs) :
  (total_futu_return_usd i <= total_ib_return i /\
   best_usd_method i = "IB with " ++ best_ib_option i /\
   best_usd_return i = total_ib_return i) \/
  (total_ib_return i < total_futu_return_usd i /\
   best_usd_method i = "FUTU with " ++ best_futu_option_usd i /\
   best_usd_return i = total_futu_return_usd i).
Proof.
  unfold best_usd_method, best_usd_return, Py.max.
  destruct (gtP (total_futu_return_usd i) (total_ib_return i)) as [H | H].
  - right. destruct (eqP (total_futu_return_usd i) (total_ib_return i)); [lra |].
    repeat split; trivial.
  - left. destruct (eqP (total_ib_return i) (total_ib_return i)) as [_ | E];
      [| exfalso; apply E; reflexivity].
    repeat split; trivial; lra.
Qed.

Lemma best_hkd_cases (i : inputs) :
  (total_futu_return_hkd i <= total_preferential_return i /\
   best_hkd_method i = "SCB Preferential Rate" /\
   best_hkd_return i = total_preferential_return i) \/
  (total_preferential_return i < total_futu_return_hkd i /\
   best_hkd_method i = "FUTU HK Money Market Fund" /\
   best_hkd_return i = total_futu_return_hkd i).
Proof.
  unfold best_hkd_method, best_hkd_return, Py.max.
  destruct (gtP (total_futu_return_hkd i) (total_preferential_return i)) as [H | H].
  - right. destruct (eqP (total_futu_return_hkd i) (total_preferential_return i));
      [lra |].
    repeat split; trivial.
  - left. destruct (eqP (total_preferential_return i) (total_preferential_return i))
      as [_ | E]; [| exfalso; apply E; reflexivity].
    repeat split; trivial; lra.
Qed.

(** X7. The best totals are the best of the table: no total of the four
    USD rows exceeds the best USD return and one of them equals it; no total
    of the two HKD rows exceeds the best HKD return and one of them equals
    it; and every row's total is its amount received plus its return. *)
Theorem best_totals_of_table (i : inputs) :
  (forall name received ret total,
     In (name, received, ret, total) (data i) -> total = received + ret) /\
  (forall total, In total (firstn 4 (map snd (data i))) -> total <= best_usd_return i) /\
  (exists total, In total (firstn 4 (map snd (data i))) /\ total = best_usd_return i) /\
  (forall total, In total (skipn 4 (map snd (data i))) -> total <= best_hkd_return i) /\
  (exists total, In total (skipn 4 (map snd (data i))) /\ total = best_hkd_return i).
Proof.
  split; [| split; [| split; [| split]]].
  - intros name received ret total H. simpl in H.
    repeat (destruct H as [H | H]; [injection H as <- <- <- <-; reflexivity |]).
    contradiction.
  - intros total H. simpl in H.
    destruct (best_usd_cases i) as [(Hle & _ & ->) | (Hlt & _ & ->)];
      destruct (total_ib_cases i) as [(Hi & _ & Ei) | (Hi & _ & Ei)];
      destruct (total_futu_usd_cases i) as [(Hf & _ & Ef) | (Hf & _ & Ef)];
      rewrite ?Ei, ?Ef in *;
      repeat (destruct H as [<- | H]; [lra |]); contradiction.
  - simpl.
    destruct (best_usd_cases i) as [(_ & _ & ->) | (_ & _ & ->)].
    + destruct (total_ib_cases i) as [(_ & _ & ->) | (_ & _ & ->)]; eauto 12.
    + destruct (total_futu_usd_cases i) as [(_ & _ & ->) | (_ & _ & ->)]; eauto 12.
  - intros total H. simpl in H.
    destruct (best_hkd_cases i) as [(Hle & _ & ->) | (Hlt & _ & ->)];
      unfold total_preferential_return, total_futu_return_hkd in *;
      repeat (destruct H as [<- | H]; [lra |]); contradiction.
  - simpl.
    destruct (best_hkd_cases i) as [(_ & _ & ->) | (_ & _ & ->)];
      unfold total_preferential_return, total_futu_return_hkd; eauto 12.
Qed.

(** X8. Each method label names a row of the table, and that row's total is
    the best return reported with the label: the row "broker option" for
    the USD label "broker with option", and the row of the HKD label with
    " (HKD)" appended. *)
Theorem best_method_names_best_row (i : inputs) :
  (exists broker option received ret,
     best_usd_method i = broker ++ " with " ++ option /\
     In (broker ++ " " ++ option, received, ret, best_usd_return i) (data i)) /\
  (exists received ret,
     In (best_hkd_method i ++ " (HKD)", received, ret, best_hkd_return i) (data i)).
Proof.
  split.
  - destruct (best_usd_cases i) as [(_ & -> & ->) | (_ & -> & ->)].
    + exists "IB".
      destruct (total_ib_cases i) as [(_ & -> & ->) | (_ & -> & ->)];
        do 3 eexists; (split; [reflexivity |]); simpl; eauto 12.
    + exists "FUTU".
      destruct (total_futu_usd_cases i) as [(_ & -> & ->) | (_ & -> & ->)];
        do 3 eexists; (split; [reflexivity |]); simpl; eauto 12.
  - destruct (best_hkd_cases i) as [(_ & -> & ->) | (_ & -> & ->)];
      do 2 eexists; simpl; eauto 12.
Qed.

(** ** The final sentence against the method labels (lines 196-204, 226-233) *)

(** X9. When the final sentence names IB, FUTU or the FUTU HK fund, the
    method label of that currency names the same vehicle, with the same
    option, and the best return of that currency is that vehicle's total. *)
Theorem final_result_agrees_with_labels (i : inputs) :
  (final_result i =
     "IB offers the better return by investing in " ++ best_ib_option i ++ "." ->
   best_usd_method i = "IB with " ++ best_ib_option i /\
   best_usd_return i = total_ib_return i) /\
  (final_result i =
     "FUTU offers the better return by investing in " ++ best_futu_option_usd i ++ "." ->
   best_usd_method i = "FUTU with " ++ best_futu_option_usd i /\
   best_usd_return i = total_futu_return_usd i) /\
  (final_result i = "FUTU HK Money Market Fund offers the better return." ->
   best_hkd_method i = "FUTU HK Money Market Fund" /\
   best_hkd_return i = total_futu_return_hkd i).
Proof.
  split; [| split]; intros E.
  - assert (D : ib_dominates i).
    { destruct (final_result_cases i) as [H | [H | [H | H]]]; [tauto | | |];
        exfalso; destruct H as (_ & H); repeat (destruct H as (? & H));
        rewrite H in E; revert E; option_cases i; discriminate. }
    destruct D as (D & _).
    destruct (best_usd_cases i) as [(_ & ? & ?) | (? & _)]; [auto | lra].
  - assert (D : futu_usd_dominates i).
    { destruct (final_result_cases i) as [H | [H | [H | H]]]; [| tauto | |];
        exfalso; destruct H as (? & H); repeat (destruct H as (? & H));
        rewrite H in E; revert E; option_cases i; discriminate. }
    destruct D as (D & _).
    destruct (best_usd_cases i) as [(? & _) | (_ & ? & ?)]; [lra | auto].
  - assert (D : futu_hk_dominates i).
    { destruct (final_result_cases i) as [H | [H | [H | H]]]; [| | tauto |];
        exfalso; destruct H as (? & H); repeat (destruct H as (? & H));
        rewrite H in E; revert E; option_cases i; discriminate. }
    destruct D as (_ & D & _).
    destruct (best_hkd_cases i) as [(? & _) | (_ & ? & ?)]; [lra | auto].
Qed.

(** In the default scenario the final sentence names the FUTU HK fund. *)
Lemma final_result_agrees_with_labels_witness :
  final_result default_scenario = "FUTU HK Money Market Fund offers the better return." /\
  best_hkd_method default_scenario = "FUTU HK Money Market Fund" /\
  best_hkd_return default_scenario = total_futu_return_hkd default_scenario.
Proof.
  split; [vm_compute; reflexivity |].
  apply (proj2 (proj2 (final_result_agrees_with_labels default_scenario))).
  vm_compute; reflexivity.
Defined.

(** X10. The fallback can contradict the HKD label: when none of IB,
    FUTU-USD and FUTU-HK-HKD is strictly greatest and the FUTU-HKD total is
    above the preferential total, the final sentence names SCB Preferential
    Rate while the best HKD method is the FUTU HK fund. *)
Theorem fallback_against_hkd_label (i : inputs) :
  ~ ib_dominates i -> ~ futu_usd_dominates i -> ~ futu_hk_dominates i ->
  total_preferential_return i < total_futu_return_hkd i ->
  final_result i = "SCB Preferential Rate offers the better return." /\
  best_hkd_method i = "FUTU HK Money Market Fund" /\
  total_preferential_return i < best_hkd_return i.
Proof.
  intros Hib Hfutu Hhk Hlt. split.
  - destruct (final_result_cases i) as [H | [H | [H | H]]]; tauto.
  - destruct (best_hkd_cases i) as [(? & _) | (_ & ? & E)]; [lra |].
    split; [assumption | rewrite E; assumption].
Qed.

(** A tie for the lead between IB, FUTU-USD and the FUTU HK fund at 1024,
    with the preferential total at 512. *)
Lemma fallback_against_hkd_label_witness :
  (~ ib_dominates tied_lead /\ ~ futu_usd_dominates tied_lead /\
   ~ futu_hk_dominates tied_lead /\
   total_preferential_return tied_lead < total_futu_return_hkd tied_lead) /\
  final_result tied_lead = "SCB Preferential Rate offers the better return." /\
  best_hkd_method tied_lead = "FUTU HK Money Market Fund" /\
  total_preferential_return tied_lead < best_hkd_return tied_lead.
Proof.
  assert (Hib : ~ ib_dominates tied_lead)
    by (intros (D & _); vm_compute in D; discriminate).
  assert (Hfutu : ~ futu_usd_dominates tied_lead)
    by (intros (D & _); vm_compute in D; discriminate).
  assert (Hhk : ~ futu_hk_dominates tied_lead)
    by (intros (D & _); vm_compute in D; discriminate).
  assert (Hlt : total_preferential_return tied_lead < total_futu_return_hkd tied_lead)
    by (vm_compute; reflexivity).
  split; [auto |].
  exact (fallback_against_hkd_label tied_lead Hib Hfutu Hhk Hlt).
Defined.

(** ** The currency answer and the divisions (lines 193, 207-220) *)

(** X11. Which runs end in an exception: the comparison raises
    [ZeroDivisionError] exactly when the best HKD total is zero (line 193)
    or the answer is HKD and the best USD total is zero (the threshold is
    then zero and line 216 divides by it); every other run completes. *)
Theorem compare_outcome (i : inputs) :
  ((exists r, compare i = Py.Ok r) <->
   ~ best_hkd_return i == 0 /\
   (preferred_currency i = "HKD" -> ~ best_usd_return i == 0)) /\
  (compare i = Py.Raise Py.ZeroDivisionError <->
   best_hkd_return i == 0 \/
   (preferred_currency i = "HKD" /\ best_usd_return i == 0)).
Proof.
  split; split.
  - intros [r E]. split.
    + intros H. rewrite (compare_zero_divisor i) in E by auto. discriminate.
    + intros Ecur H. rewrite (compare_zero_divisor i) in E by auto. discriminate.
  - intros [Hhkd Husd]. apply compare_completes; assumption.
  - intros E.
    destruct (eqP (best_hkd_return i) 0) as [| Hhkd]; [auto |].
    destruct (string_dec (preferred_currency i) "HKD") as [Ecur | Ecur].
    + destruct (eqP (best_usd_return i) 0) as [| Husd]; [auto |].
      destruct (compare_completes i Hhkd) as [r E']; [auto | congruence].
    + destruct (compare_completes i Hhkd) as [r E']; [tauto | congruence].
  - apply compare_zero_divisor.
Qed.

Lemma compare_outcome_witness :
  (exists r, compare default_scenario = Py.Ok r) /\
  compare zero_hkd = Py.Raise Py.ZeroDivisionError.
Proof.
  split.
  - assert (P : 0 < best_hkd_return default_scenario) by (vm_compute; reflexivity).
    apply (proj2 (proj1 (compare_outcome default_scenario))). split.
    + intros E. apply (Qlt_not_eq _ _ P). symmetry. exact E.
    + intros E. discriminate E.
  - apply (proj2 (proj2 (compare_outcome zero_hkd))). left. vm_compute; reflexivity.
Defined.

(** X13. An answer that is neither USD nor HKD costs only the headline: the
    run still completes, unless the best HKD total is zero, and shows the
    table, the threshold and the final sentence. *)
Theorem unrecognised_currency_still_reports (i : inputs) :
  preferred_currency i <> "USD" -> preferred_currency i <> "HKD" ->
  ~ best_hkd_return i == 0 ->
  exists r, compare i = Py.Ok r /\
    shown_best r = None /\
    shown_data r = data i /\
    shown_exchange_rate_threshold r = best_usd_return i / best_hkd_return i /\
    shown_final_result r = final_result i.
Proof.
  intros Nusd Nhkd Hhkd.
  unfold compare, exchange_rate_threshold, Py.truediv.
  destruct (eqP (best_hkd_return i) 0) as [| _]; [contradiction |]. simpl.
  unfold currency_preference.
  destruct (String.eqb_spec (preferred_currency i) "USD"); [contradiction |].
  destruct (String.eqb_spec (preferred_currency i) "HKD"); [contradiction |].
  simpl. eexists. split; [reflexivity |]. simpl. auto.
Qed.

Lemma unrecognised_currency_still_reports_witness :
  (preferred_currency other_currency <> "USD" /\
   preferred_currency other_currency <> "HKD" /\
   ~ best_hkd_return other_currency == 0) /\
  exists r, compare other_currency = Py.Ok r /\
    shown_best r = None /\
    shown_data r = data other_currency /\
    shown_exchange_rate_threshold r =
      best_usd_return other_currency / best_hkd_return other_currency /\
    shown_final_result r = final_result other_currency.
Proof.
  assert (Nusd : preferred_currency other_currency <> "USD") by discriminate.
  assert (Nhkd : preferred_currency other_currency <> "HKD") by discriminate.
  assert (P : 0 < best_hkd_return other_currency) by (vm_compute; reflexivity).
  assert (Hhkd : ~ best_hkd_return other_currency == 0)
    by (intros E; apply (Qlt_not_eq _ _ P); symmetry; exact E).
  split; [auto |].
  exact (unrecognised_currency_still_reports other_currency Nusd Nhkd Hhkd).
Defined.

(** ** The early returns of [main] (lines 77-102) *)

(** X14. One unreadable answer at any of the six prompts ends the run with
    the invalid-input message, whatever the other answers are and whether or
    not any rate could be fetched. *)
Theorem main_invalid_input (s : session) :
  reply_capital_hkd s = Garbled \/ reply_ib_fx_rate s = Garbled \/
  reply_futu_fx_rate s = Garbled \/ reply_futu_annualized_return_usd s = Garbled \/
  reply_futu_annualized_return_hkd s = Garbled \/
  reply_preferential_rate_hkd s = Garbled ->
  main s = Returned "Invalid input. Please enter numeric values.".
Proof.
  intros H. unfold main, user_inputs.
  destruct (reply_capital_hkd s); simpl; try reflexivity;
    (destruct (reply_ib_fx_rate s); simpl; try reflexivity;
     (destruct (reply_futu_fx_rate s); simpl; try reflexivity;
      (destruct (reply_futu_annualized_return_usd s); simpl; try reflexivity;
       (destruct (reply_futu_annualized_return_hkd s); simpl; try reflexivity;
        (destruct (reply_preferential_rate_hkd s); simpl; try reflexivity;
         exfalso; intuition discriminate))))).
Qed.

Lemma main_invalid_input_witness :
  reply_ib_fx_rate garbled_no_rates = Garbled /\
  main garbled_no_rates = Returned "Invalid input. Please enter numeric values.".
Proof.
  split; [reflexivity |].
  apply (main_invalid_input garbled_no_rates). right. left. reflexivity.
Defined.

(** X15. With six readable answers, [main] returns with the bond-rate
    message exactly when a bond quote is missing, whether or not the fed
    rate is available; it returns with the fed-rate message exactly when
    both bond quotes are there and the fed rate is missing; and it returns
    early with no other message. *)
Theorem main_missing_rates (s : session) (u : Q * Q * Q * Q * Q * Q) :
  user_inputs s = Py.Ok u ->
  (main s = Returned "Failed to retrieve bond rates." <->
   get_bond_rate_US1Y s = None \/ get_bond_rate_US10Y s = None) /\
  (main s = Returned "Failed to retrieve the Fed rate." <->
   get_bond_rate_US1Y s <> None /\ get_bond_rate_US10Y s <> None /\
   get_fed_rate s = None) /\
  (forall message, main s = Returned message ->
     message = "Failed to retrieve bond rates." \/
     message = "Failed to retrieve the Fed rate.").
Proof.
  intros E. unfold main. rewrite E.
  destruct u as [[[[[c fi] ff] ru] rh] p].
  destruct (get_bond_rate_US1Y s) as [b1 |], (get_bond_rate_US10Y s) as [b10 |];
    try (split; [| split];
         [ split; [auto | reflexivity]
         | split; [discriminate | intros (H1 & H2 & _); congruence]
         | intros message H; injection H as <-; auto ]).
  destruct (get_fed_rate s) as [f |].
  - match goal with |- context [compare ?i] => destruct (compare i) end;
      (split; [| split];
       [ split; [discriminate | intros [H | H]; discriminate]
       | split; [discriminate | intros (_ & _ & H); discriminate]
       | intros message H; discriminate ]).
  - split; [| split].
    + split; [discriminate | intros [H | H]; discriminate].
    + split; [intros _; repeat split; discriminate | reflexivity].
    + intros message H. injection H as <-. auto.
Qed.

Lemma main_missing_rates_witness :
  (get_bond_rate_US10Y no_bond_rate = None /\
   get_fed_rate no_bond_rate <> None /\
   main no_bond_rate = Returned "Failed to retrieve bond rates.") /\
  (get_bond_rate_US1Y no_fed_rate <> None /\
   get_bond_rate_US10Y no_fed_rate <> None /\
   get_fed_rate no_fed_rate = None /\
   main no_fed_rate = Returned "Failed to retrieve the Fed rate.").
Proof.
  split.
  - split; [reflexivity |]. split; [discriminate |].
    eapply (proj2 (proj1 (main_missing_rates no_bond_rate _ eq_refl))).
    right. reflexivity.
  - split; [discriminate |]. split; [discriminate |]. split; [reflexivity |].
    eapply (proj2 (proj1 (proj2 (main_missing_rates no_fed_rate _ eq_refl)))).
    split; [discriminate |]. split; [discriminate | reflexivity].
Defined.

(** X16. In a run where every prompt is answered (with an empty line, a
    number or unreadable text) and the two rate functions return a rate or
    [None], an exception leaves [main] exactly when all six answers were
    read, all three rates were obtained and the comparison raises; the
    exception is then the [ZeroDivisionError] of line 193 or 216.  The
    [ValueError] of an unreadable answer is always caught.  What [input] or
    the rate functions raise themselves (end of input, a network failure)
    is outside this model. *)
Theorem main_uncaught (s : session) (e : Py.exception) :
  main s = Uncaught e <->
  e = Py.ZeroDivisionError /\
  exists capital ib_fx futu_fx return_usd return_hkd preferential
         rate_1y rate_10y fed,
    user_inputs s =
      Py.Ok (capital, ib_fx, futu_fx, return_usd, return_hkd, preferential) /\
    get_bond_rate_US1Y s = Some rate_1y /\
    get_bond_rate_US10Y s = Some rate_10y /\
    get_fed_rate s = Some fed /\
    compare {| capital_hkd := capital; ib_fx_rate := ib_fx;
               futu_fx_rate := futu_fx;
               futu_annualized_return_usd := return_usd;
               futu_annualized_return_hkd := return_hkd;
               preferential_rate_hkd := preferential;
               bond_rate_1y := rate_1y; bond_rate_10y := rate_10y;
               fed_rate := fed;
               preferred_currency := reply_preferred_currency s |}
      = Py.Raise Py.ZeroDivisionError.
Proof.
  unfold main. split.
  - destruct (user_inputs s) as [u | x] eqn:Eu.
    + destruct u as [[[[[c fi] ff] ru] rh] p].
      destruct (get_bond_rate_US1Y s) as [b1 |]; [| discriminate].
      destruct (get_bond_rate_US10Y s) as [b10 |]; [| discriminate].
      destruct (get_fed_rate s) as [f |]; [| discriminate].
      match goal with |- context [compare ?i] => destruct (compare i) eqn:Ec end;
        [discriminate |].
      intros E. injection E as <-.
      pose proof (compare_raises _ _ Ec) as ->.
      split; [reflexivity |]. do 9 eexists. repeat split. exact Ec.
    + destruct x; [discriminate |]. exfalso. revert Eu. unfold user_inputs.
      destruct (reply_capital_hkd s); simpl; try discriminate;
        (destruct (reply_ib_fx_rate s); simpl; try discriminate;
         (destruct (reply_futu_fx_rate s); simpl; try discriminate;
          (destruct (reply_futu_annualized_return_usd s); simpl; try discriminate;
           (destruct (reply_futu_annualized_return_hkd s); simpl; try discriminate;
            (destruct (reply_preferential_rate_hkd s); simpl; discriminate))))).
  - intros (-> & c & fi & ff & ru & rh & p & b1 & b10 & f & -> & -> & -> & -> & ->).
    reflexivity.
Qed.

(** The default answers with both HKD rates typed in as -100. *)
Lemma main_uncaught_witness :
  main zero_hkd_session = Uncaught Py.ZeroDivisionError.
Proof.
  apply (proj2 (main_uncaught zero_hkd_session Py.ZeroDivisionError)).
  split; [reflexivity |]. do 9 eexists.
  split; [reflexivity |]. split; [reflexivity |]. split; [reflexivity |].
  split; [reflexivity |]. vm_compute; reflexivity.
Defined.

(** ** The fed rate and the IB total (lines 58-59, 116, 141-146, 183) *)

(** X17. A higher fed rate never lowers the IB total: for two runs that
    differ at most in the fed rate (and in what IB does not look at), with a
    non-negative amount received at IB, the run with the higher fed rate has
    at least the IB total of the other. *)
Theorem total_ib_return_monotone_in_fed_rate (i j : inputs) :
  capital_hkd i = capital_hkd j -> ib_fx_rate i = ib_fx_rate j ->
  bond_rate_1y i = bond_rate_1y j -> bond_rate_10y i = bond_rate_10y j ->
  0 <= usd_received_ib i ->
  fed_rate i <= fed_rate j ->
  total_ib_return i <= total_ib_return j.
Proof.
  unfold total_ib_return, best_ib_return, ib_money_market_return, ib_bond_return,
    ib_bond_fee, best_bond_rate, usd_received_ib, calculate_ib_money_market_return.
  intros <- <- <- <- Hpos Hfed.
  set (received := calculate_usd_received (capital_hkd i) (ib_fx_rate i)
                     (Some calculate_ib_fx_fee)) in *.
  set (bond := received * (Py.max (bond_rate_1y i) (bond_rate_10y i) / 100)
               - calculate_ib_bond_fee received).
  py_cases; nra.
Qed.

Lemma total_ib_return_monotone_in_fed_rate_witness :
  (0 <= usd_received_ib default_scenario /\
   fed_rate default_scenario <= fed_rate higher_fed_rate) /\
  total_ib_return default_scenario <= total_ib_return higher_fed_rate.
Proof.
  assert (Hpos : 0 <= usd_received_ib default_scenario)
    by (vm_compute; discriminate).
  assert (Hfed : fed_rate default_scenario <= fed_rate higher_fed_rate)
    by (vm_compute; discriminate).
  split; [auto |].
  exact (total_ib_return_monotone_in_fed_rate default_scenario higher_fed_rate
           eq_refl eq_refl eq_refl eq_refl Hpos Hfed).
Defined.

(** ** The choices in terms of the rates (lines 123-154, 189-204) *)

Lemma div_100 (x : Q) : x / 100 == x * 0.01.
Proof. unfold Qdiv. apply Qmult_comp; reflexivity. Qed.

Lemma ib_bond_fee_floor (x : Q) : 5 <= calculate_ib_bond_fee x.
Proof. unfold calculate_ib_bond_fee, Py.max. py_cases; lra. Qed.

Lemma futu_bond_fee_floor (x : Q) : 4 <= calculate_futu_bond_fee x.
Proof. unfold calculate_futu_bond_fee, Py.max, Py.min. cbv zeta. py_cases; lra. Qed.

(** X18. The bond fee decides between equal rates: with a non-negative
    amount received, a money market rate that is at least the best bond rate
    (the fed rate less 0.005 at IB, the annualized USD return at FUTU) makes
    Money Market the option chosen. *)
Theorem money_market_at_equal_rates (i : inputs) :
  (0 <= usd_received_ib i ->
   best_bond_rate i / 100 <= fed_rate i - 0.005 ->
   best_ib_option i = "Money Market Fund (USD)") /\
  (0 <= usd_received_futu i ->
   best_bond_rate i <= futu_annualized_return_usd i ->
   best_futu_option_usd i = "Money Market Fund (USD)").
Proof.
  split; intros Hpos Hrate.
  - destruct (total_ib_cases i) as [(_ & E & _) | (Hle & _)]; [exact E |].
    exfalso. revert Hle.
    unfold ib_bond_return, ib_money_market_return, calculate_ib_money_market_return,
      ib_bond_fee.
    pose proof (ib_bond_fee_floor (usd_received_ib i)) as Hfee.
    generalize dependent (calculate_ib_bond_fee (usd_received_ib i)).
    generalize dependent (usd_received_ib i).
    generalize dependent (best_bond_rate i). generalize dependent (fed_rate i).
    intros. rewrite !div_100 in *. nra.
  - destruct (total_futu_usd_cases i) as [(_ & E & _) | (Hle & _)]; [exact E |].
    exfalso. revert Hle.
    unfold futu_bond_return, futu_money_market_return_usd,
      calculate_futu_money_market_return, futu_bond_fee.
    pose proof (futu_bond_fee_floor (usd_received_futu i)) as Hfee.
    generalize dependent (calculate_futu_bond_fee (usd_received_futu i)).
    generalize dependent (usd_received_futu i).
    generalize dependent (best_bond_rate i).
    generalize dependent (futu_annualized_return_usd i).
    intros. rewrite !div_100 in *. nra.
Qed.

(** The bond rate equal to the money market rate at both brokers. *)
Lemma money_market_at_equal_rates_witness :
  (0 <= usd_received_ib equal_rates /\
   best_bond_rate equal_rates / 100 <= fed_rate equal_rates - 0.005 /\
   best_ib_option equal_rates = "Money Market Fund (USD)") /\
  (0 <= usd_received_futu equal_rates /\
   best_bond_rate equal_rates <= futu_annualized_return_usd equal_rates /\
   best_futu_option_usd equal_rates = "Money Market Fund (USD)").
Proof.
  split; (split; [vm_compute; discriminate |]); (split; [vm_compute; discriminate |]).
  - apply (proj1 (money_market_at_equal_rates equal_rates)); vm_compute; discriminate.
  - apply (proj2 (money_market_at_equal_rates equal_rates)); vm_compute; discriminate.
Defined.

(** X19. On the HKD side the higher rate wins and SCB wins the tie: for a
    non-negative capital, a preferential rate at least as high as the rate
    of the FUTU HK fund makes SCB Preferential Rate the best HKD method;
    so the FUTU HK fund is the best HKD method only when its rate is
    strictly higher. *)
Theorem best_hkd_method_scb_by_rate (i : inputs) :
  0 <= capital_hkd i ->
  (futu_annualized_return_hkd i <= preferential_rate_hkd i ->
   best_hkd_method i = "SCB Preferential Rate") /\
  (best_hkd_method i = "FUTU HK Money Market Fund" ->
   preferential_rate_hkd i < futu_annualized_return_hkd i).
Proof.
  intros Hpos.
  destruct (best_hkd_cases i) as [(Hle & E & _) | (Hlt & E & _)]; rewrite E.
  - split; [trivial | discriminate].
  - revert Hlt.
    unfold total_futu_return_hkd, total_preferential_return,
      futu_money_market_return_hkd, preferential_return,
      calculate_hk_money_market_return.
    generalize dependent (capital_hkd i).
    generalize dependent (futu_annualized_return_hkd i).
    generalize dependent (preferential_rate_hkd i).
    intros p r c Hpos Hlt. rewrite !div_100 in Hlt.
    split; intros H; [exfalso |]; nra.
Qed.

(** Both HKD rates at 0 (preferential rate not below the fund's), and the
    default scenario (the fund's rate strictly higher). *)
Lemma best_hkd_method_scb_by_rate_witness :
  (0 <= capital_hkd tied_totals /\
   futu_annualized_return_hkd tied_totals <= preferential_rate_hkd tied_totals /\
   best_hkd_method tied_totals = "SCB Preferential Rate") /\
  (0 <= capital_hkd default_scenario /\
   best_hkd_method default_scenario = "FUTU HK Money Market Fund" /\
   preferential_rate_hkd default_scenario < futu_annualized_return_hkd default_scenario).
Proof.
  split.
  - split; [vm_compute; discriminate |]. split; [vm_compute; discriminate |].
    apply (proj1 (best_hkd_method_scb_by_rate tied_totals ltac:(vm_compute; discriminate))).
    vm_compute; discriminate.
  - split; [vm_compute; discriminate |]. split; [vm_compute; reflexivity |].
    apply (proj2 (best_hkd_method_scb_by_rate default_scenario
                    ltac:(vm_compute; discriminate))).
    vm_compute; reflexivity.
Defined.
